(** * Factoids plugin (src/plugins/Factoids.py): a shallow embedding.

    The plugin keeps, per channel, an SQLite database with two tables,
    [keys] and [factoids], and answers the IRC commands [learn], [whatis],
    [lock], [unlock], [unlearn], [randomfactoid] and [factoidinfo].

    Modelling decisions:
    - a table is the list of its rows in rowid order (both tables declare
      [id INTEGER PRIMARY KEY], so a table scan walks the rows by ascending
      rowid and a row inserted with a NULL id gets the largest rowid plus
      one);
    - a join scans the tables of its FROM clause as nested loops, left table
      outermost; a SELECT without ORDER BY returns rows in scan order;
    - [db.commit()] does not change the logical contents and is omitted;
    - integers are unbounded ([Z]); text is [string];
    - what the plugin imports from the rest of the bot ([privmsgs], [ircdb],
      [conf], [ircutils], [time]) is a field of the record [Env]. *)

From Stdlib Require Import ZArith List String Ascii Bool Lia DecimalString
  DecimalZ.
Import ListNotations.

Local Open Scope string_scope.
Local Open Scope Z_scope.

(** ** Python built-ins used by the plugin *)

Module Py.

(** [' '.join(l)] *)
Definition join (sep : string) (l : list string) : string :=
  String.concat sep l.

(** ['%s' % n] for an integer [n]. *)
Definition str (n : Z) : string := NilZero.string_of_int (Z.to_int n).

(** [len(l)] *)
Definition len {A} (l : list A) : Z := Z.of_nat (List.length l).

(** [l.index(x)]: position of the first element equal to [x];
    [None] stands for the ValueError. *)
Fixpoint index (x : string) (l : list string) : option nat :=
  match l with
  | [] => None
  | y :: r => if (y =? x)%string then Some O
              else option_map S (index x r)
  end.

(** [l.pop(i)]: the list without its [i]-th element. *)
Definition pop_at {A} (i : nat) (l : list A) : list A :=
  firstn i l ++ skipn (S i) l.

(** [l[i]] on a list: a negative index counts from the end; [None] stands
    for the IndexError. *)
Definition getitem {A} (l : list A) (i : Z) : option A :=
  if 0 <=? i then nth_error l (Z.to_nat i)
  else if 0 <=? len l + i then nth_error l (Z.to_nat (len l + i))
  else None.

Definition is_space (c : ascii) : bool :=
  let n := nat_of_ascii c in
  (Nat.eqb n 32 || (Nat.leb 9 n && Nat.leb n 13))%bool.

Fixpoint lstrip (cs : list ascii) : list ascii :=
  match cs with
  | c :: r => if is_space c then lstrip r else cs
  | [] => []
  end.

Definition strip (cs : list ascii) : list ascii :=
  rev (lstrip (rev (lstrip cs))).

Definition digit_val (c : ascii) : option Z :=
  let n := nat_of_ascii c in
  if (Nat.leb 48 n && Nat.leb n 57)%bool then Some (Z.of_nat n - 48)
  else None.

Fixpoint digits_val (acc : Z) (cs : list ascii) : option Z :=
  match cs with
  | [] => Some acc
  | c :: r => match digit_val c with
              | Some d => digits_val (10 * acc + d) r
              | None => None
              end
  end.

(** [int(s)] on a string: surrounding white space, an optional sign and at
    least one decimal digit; [None] stands for the ValueError. *)
Definition int (s : string) : option Z :=
  match strip (list_ascii_of_string s) with
  | [] => None
  | c :: r =>
      if Ascii.eqb c "-" then
        match r with
        | [] => None
        | _ => option_map Z.opp (digits_val 0 r)
        end
      else if Ascii.eqb c "+" then
        match r with
        | [] => None
        | _ => digits_val 0 r
        end
      else digits_val 0 (c :: r)
  end.

(** [s.isdigit] without the call: a bound method object, which is true in
    a condition whatever [s] is. *)
Definition isdigit_attr (s : string) : bool := true.

End Py.

(** ** The database of one channel *)

(** A row of [keys (id INTEGER PRIMARY KEY, key TEXT UNIQUE ON CONFLICT
    IGNORE, locked BOOLEAN)]. *)
Record KeyRow := mkKey {
  k_id : Z;
  k_key : string;
  k_locked : Z
}.

(** A row of [factoids (id INTEGER PRIMARY KEY, key_id INTEGER, added_by
    TEXT, added_at TIMESTAMP, fact TEXT)]. *)
Record FactoidRow := mkFactoid {
  f_id : Z;
  f_key_id : Z;
  f_added_by : string;
  f_added_at : Z;
  f_fact : string
}.

Record Db := mkDb {
  keys : list KeyRow;
  factoids : list FactoidRow
}.

(** [makeDb] on a file that does not exist yet: two empty tables. *)
Definition makeDb : Db := mkDb [] [].

Module Sql.

(** The rowid given to a row inserted with a NULL id. *)
Definition next_rowid (ids : list Z) : Z :=
  match ids with
  | [] => 1
  | x :: r => 1 + fold_left Z.max r x
  end.

(** [SELECT id, locked FROM keys WHERE key=%s] *)
Definition select_key (db : Db) (key : string) : list (Z * Z) :=
  map (fun k => (k_id k, k_locked k))
      (filter (fun k => (k_key k =? key)%string) (keys db)).

(** [INSERT INTO keys VALUES (NULL, %s, 0)]; the column is UNIQUE ON
    CONFLICT IGNORE, so the statement does nothing when the text is
    already there. *)
Definition insert_key (db : Db) (key : string) : Db :=
  if existsb (fun k => (k_key k =? key)%string) (keys db) then db
  else mkDb (keys db ++ [mkKey (next_rowid (map k_id (keys db))) key 0])
            (factoids db).

(** [INSERT INTO factoids VALUES (NULL, %s, %s, %s, %s)] *)
Definition insert_factoid (db : Db) (key_id : Z) (name : string) (at_ : Z)
    (fact : string) : Db :=
  mkDb (keys db)
       (factoids db ++
        [mkFactoid (next_rowid (map f_id (factoids db))) key_id name at_
                   fact]).

(** [UPDATE keys SET locked = v WHERE key=%s] *)
Definition update_locked (db : Db) (key : string) (v : Z) : Db :=
  mkDb (map (fun k => if (k_key k =? key)%string
                      then mkKey (k_id k) (k_key k) v else k) (keys db))
       (factoids db).

(** The join condition shared by [whatis] and [unlearn]:
    [keys.key=%s AND factoids.key_id=keys.id]. *)
Definition joins (key : string) (k : KeyRow) (f : FactoidRow) : bool :=
  ((k_key k =? key)%string && (f_key_id f =? k_id k))%bool.

(** [... FROM factoids, keys WHERE keys.key=%s AND
    factoids.key_id=keys.id] *)
Definition from_factoids_keys (db : Db) (key : string)
    : list (FactoidRow * KeyRow) :=
  flat_map (fun f => map (pair f) (filter (fun k => joins key k f) (keys db)))
           (factoids db).

(** [... FROM keys, factoids WHERE key=%s AND factoids.key_id=keys.id] *)
Definition from_keys_factoids (db : Db) (key : string)
    : list (KeyRow * FactoidRow) :=
  flat_map (fun k => map (pair k)
                         (filter (fun f => joins key k f) (factoids db)))
           (keys db).

(** [ORDER BY id]: a stable sort on an integer column. *)
Fixpoint insert_by {A} (col : A -> Z) (x : A) (l : list A) : list A :=
  match l with
  | [] => [x]
  | y :: r => if col x <=? col y then x :: l else y :: insert_by col x r
  end.

Fixpoint order_by {A} (col : A -> Z) (l : list A) : list A :=
  match l with
  | [] => []
  | x :: r => insert_by col x (order_by col r)
  end.

(** [DELETE FROM factoids WHERE key_id=%s] *)
Definition delete_factoids_key_id (db : Db) (key_id : Z) : Db :=
  mkDb (keys db)
       (filter (fun f => negb (f_key_id f =? key_id)) (factoids db)).

(** [DELETE FROM factoids WHERE id=%s] *)
Definition delete_factoid_id (db : Db) (id : Z) : Db :=
  mkDb (keys db) (filter (fun f => negb (f_id f =? id)) (factoids db)).

(** [DELETE FROM keys WHERE key=%s], with the trigger [remove_factoids]:
    before a row of [keys] goes, the factoids whose [key_id] is its id
    go. *)
Definition delete_keys_key (db : Db) (key : string) : Db :=
  let old := filter (fun k => (k_key k =? key)%string) (keys db) in
  mkDb (filter (fun k => negb (k_key k =? key)%string) (keys db))
       (fold_left
          (fun fs o => filter (fun f => negb (f_key_id f =? k_id o)) fs)
          old (factoids db)).

End Sql.

(** ** The rest of the bot, as seen from the plugin *)

(** The exceptions a command can end with. *)
Inductive Exn := ArgumentError | ValueError | IndexError | TypeError.

(** What a command does to the IRC connection: [irc.reply(msg, s)],
    [irc.error(msg, s)], or an exception that leaves the command. *)
Inductive Outcome :=
| Reply (s : string)
| Error (s : string)
| Raised (e : Exn).

(** The fields of the IRC message the plugin reads. *)
Record Msg := mkMsg {
  prefix : string;
  nick : string
}.

(** The collaborators of one call.  None of them is defined in the plugin. *)
Record Env := mkEnv {
  (** [privmsgs.getChannel(msg, args)]: the channel, and [args] as the call
      leaves it. *)
  getChannel : Msg -> list string -> Exn + (string * list string);
  (** [privmsgs.getArgs(args)] *)
  getArgs : list string -> Exn + string;
  (** [ircdb.makeChannelCapability(channel, 'factoids')] *)
  makeChannelCapability : string -> string -> string;
  (** [ircdb.checkCapability(msg.prefix, capability)] *)
  checkCapability : string -> string -> bool;
  (** [ircdb.users.hasUser], [ircdb.users.getUserName] *)
  hasUser : string -> bool;
  getUserName : string -> string;
  (** [int(time.time())] *)
  time : Z;
  (** [conf.replySuccess], [conf.replyNoCapability % capability] *)
  replySuccess : string;
  replyNoCapability : string -> string;
  (** [ircutils.shrinkList(L, sep, limit)]: its result and [L] afterwards. *)
  shrinkList : list string -> string -> Z -> Z * list string;
  (** the draw behind [ORDER BY random()] *)
  random : nat;
  (** [time.strftime(conf.humanTimestampFormat, time.localtime(t))] *)
  humanTimestamp : Z -> string;
  (** ['%r' % key] *)
  repr : string -> string
}.

(** One database per channel; [getDb] makes an empty one on first use. *)
Definition Dbs := string -> Db.

Definition noDbs : Dbs := fun _ => makeDb.

Definition getDb (dbs : Dbs) (channel : string) : Db := dbs channel.

Definition setDb (dbs : Dbs) (channel : string) (db : Db) : Dbs :=
  fun c => if (c =? channel)%string then db else dbs c.

(** Every command starts with [channel = privmsgs.getChannel(msg, args)] and
    works on [self.getDb(channel)]. *)
Definition on_channel (env : Env) (msg : Msg) (args : list string)
    (body : string -> list string -> Db -> Outcome * Db) (dbs : Dbs)
    : Outcome * Dbs :=
  match getChannel env msg args with
  | inl e => (Raised e, dbs)
  | inr (channel, args') =>
      let '(out, db') := body channel args' (getDb dbs channel) in
      (out, setDb dbs channel db')
  end.

(** ** The commands *)

(** Lines 96-101 of [learn]: look the key up, insert it when the lookup
    found nothing, and fetch the row.  [None] is [fetchone()] returning
    None. *)
Definition resolve_key (db : Db) (key : string) : option (Z * Z) * Db :=
  match Sql.select_key db key with
  | [] =>
      let db := Sql.insert_key db key in
      (hd_error (Sql.select_key db key), db)
  | row :: _ => (Some row, db)
  end.

Definition learn_body (env : Env) (msg : Msg) (channel : string)
    (args : list string) (db : Db) : Outcome * Db :=
  match Py.index "as" args with
  | None => (Raised ArgumentError, db)
  | Some i =>
      let args := Py.pop_at i args in
      let key := Py.join " " (firstn i args) in
      let factoid := Py.join " " (skipn i args) in
      match resolve_key db key with
      | (None, db) => (Raised TypeError, db)
      | (Some (id, locked), db) =>
          let capability := makeChannelCapability env channel "factoids" in
          if locked =? 0 then
            if negb (checkCapability env (prefix msg) capability) then
              (Error (replyNoCapability env capability), db)
            else
              let name := if hasUser env (prefix msg)
                          then getUserName env (prefix msg)
                          else nick msg in
              let db := Sql.insert_factoid db id name (time env) factoid in
              (Reply (replySuccess env), db)
          else (Error "That factoid is locked.", db)
      end
  end.

Definition learn (env : Env) (msg : Msg) (args : list string)
    : Dbs -> Outcome * Dbs :=
  on_channel env msg args (learn_body env msg).

(** The query of [whatis], before its LIMIT. *)
Definition key_factoids (db : Db) (key : string) : list FactoidRow :=
  map fst (Sql.order_by (fun r => f_id (fst r)) (Sql.from_factoids_keys db key)).

(** [cursor.fetchall()] in [whatis]: the [fact] column, LIMIT 20. *)
Definition whatis_rows (db : Db) (key : string) : list string :=
  map f_fact (firstn 20 (key_factoids db key)).

(** The loop of [whatis]: ['(#%s) %s' % (counter, result[0])]. *)
Fixpoint whatis_factoids (counter : Z) (rows : list string) : list string :=
  match rows with
  | [] => []
  | fact :: r =>
      ("(#" ++ Py.str counter ++ ") " ++ fact) :: whatis_factoids (counter + 1) r
  end.

(** [totalResults = len(factoids)] *)
Definition whatis_totalResults (db : Db) (key : string) : Z :=
  Py.len (whatis_factoids 0 (whatis_rows db key)).

Definition whatis_body (env : Env) (msg : Msg) (channel : string)
    (args : list string) (db : Db) : Outcome * Db :=
  match getArgs env args with
  | inl e => (Raised e, db)
  | inr key =>
      let rows := whatis_rows db key in
      if Py.len rows =? 0 then (Error "No factoid matches that key.", db)
      else
        let counter := Py.len rows in
        let factoids := whatis_factoids 0 rows in
        let totalResults := whatis_totalResults db key in
        let '(shrunk, factoids) := shrinkList env factoids ", or " 400 in
        if negb (shrunk =? 0) then
          (Reply (key ++ " could be " ++ Py.join ", or " factoids ++ ". (" ++
                  Py.str (counter - 1) ++ " results shown out of " ++
                  Py.str totalResults ++ ")"), db)
        else
          (Reply (key ++ " could be " ++ Py.join ", or " factoids ++ "."), db)
  end.

Definition whatis (env : Env) (msg : Msg) (args : list string)
    : Dbs -> Outcome * Dbs :=
  on_channel env msg args (whatis_body env msg).

(** [lock] and [unlock] differ in the value they write. *)
Definition set_locked_body (v : Z) (env : Env) (msg : Msg) (channel : string)
    (args : list string) (db : Db) : Outcome * Db :=
  match getArgs env args with
  | inl e => (Raised e, db)
  | inr key =>
      let capability := makeChannelCapability env channel "factoids" in
      if checkCapability env (prefix msg) capability then
        (Reply (replySuccess env), Sql.update_locked db key v)
      else (Error (replyNoCapability env capability), db)
  end.

Definition lock (env : Env) (msg : Msg) (args : list string)
    : Dbs -> Outcome * Dbs :=
  on_channel env msg args (set_locked_body 1 env msg).

Definition unlock (env : Env) (msg : Msg) (args : list string)
    : Dbs -> Outcome * Dbs :=
  on_channel env msg args (set_locked_body 0 env msg).

(** Lines 197-200 of [unlearn]: the condition is the method [isdigit]
    itself, so the last word always goes through [int]. *)
Definition unlearn_number (args : list string)
    : Exn + (option Z * list string) :=
  match rev args with
  | [] => inl IndexError
  | word :: _ =>
      if Py.isdigit_attr word then
        match Py.int word with
        | Some n => inr (Some n, removelast args)
        | None => inl ValueError
        end
      else inr (None, args)
  end.

(** Lines 201-234 of [unlearn], with [number] as lines 197-200 left it. *)
Definition unlearn_rest (env : Env) (msg : Msg) (channel : string)
    (number : option Z) (args : list string) (db : Db) : Outcome * Db :=
  match getArgs env args with
  | inl e => (Raised e, db)
  | inr key =>
      let capability := makeChannelCapability env channel "factoids" in
      if checkCapability env (prefix msg) capability then
        let results :=
          map (fun r => (k_id (fst r), f_id (snd r)))
              (Sql.from_keys_factoids db key) in
        let rowcount := Py.len results in
        if rowcount =? 0 then (Error "There is no such factoid.", db)
        else if rowcount =? 1 then
          match results with
          | [] => (Raised TypeError, db)
          | (id, _) :: _ =>
              let db := Sql.delete_factoids_key_id db id in
              let db := Sql.delete_keys_key db key in
              (Reply (replySuccess env), db)
          end
        else
          match number with
          | Some number =>
              match Py.getitem results number with
              | None => (Error "Invalid factoid number.", db)
              | Some (_, id) =>
                  (Reply (replySuccess env), Sql.delete_factoid_id db id)
              end
          | None =>
              (Error (Py.str rowcount ++
                      " factoids have that key.  " ++
                      "Please specify which one to remove."), db)
          end
      else (Error (replyNoCapability env capability), db)
  end.

Definition unlearn_body (env : Env) (msg : Msg) (channel : string)
    (args : list string) (db : Db) : Outcome * Db :=
  match unlearn_number args with
  | inl e => (Raised e, db)
  | inr (number, args) => unlearn_rest env msg channel number args db
  end.

Definition unlearn (env : Env) (msg : Msg) (args : list string)
    : Dbs -> Outcome * Dbs :=
  on_channel env msg args (unlearn_body env msg).

Definition randomfactoid_body (env : Env) (msg : Msg) (channel : string)
    (args : list string) (db : Db) : Outcome * Db :=
  match factoids db with
  | [] => (Error "I couldn't find a factoid.", db)
  | f0 :: _ =>
      let f := nth (Nat.modulo (random env) (List.length (factoids db)))
                   (factoids db) f0 in
      match filter (fun k => k_id k =? f_key_id f) (keys db) with
      | [] => (Raised TypeError, db)
      | k :: _ => (Reply (k_key k ++ ": " ++ f_fact f), db)
      end
  end.

Definition randomfactoid (env : Env) (msg : Msg) (args : list string)
    : Dbs -> Outcome * Dbs :=
  on_channel env msg args (randomfactoid_body env msg).

(** The loop of [factoidinfo]. *)
Fixpoint factoidinfo_lines (env : Env) (counter : Z)
    (rows : list FactoidRow) : list string :=
  match rows with
  | [] => []
  | f :: r =>
      ("#" ++ Py.str counter ++ " was added by " ++ f_added_by f ++ " at " ++
       humanTimestamp env (f_added_at f))
      :: factoidinfo_lines env (counter + 1) r
  end.

Definition factoidinfo_body (env : Env) (msg : Msg) (channel : string)
    (args : list string) (db : Db) : Outcome * Db :=
  match getArgs env args with
  | inl e => (Raised e, db)
  | inr key =>
      match Sql.select_key db key with
      | [] => (Error "No factoid matches that key.", db)
      | (id, locked) :: _ =>
          let rows :=
            Sql.order_by f_id
              (filter (fun f => f_key_id f =? id) (factoids db)) in
          let L := factoidinfo_lines env 0 rows in
          (Reply ("Key " ++ repr env key ++ " is " ++
                  (if locked =? 0 then "not locked" else "locked") ++
                  " and has " ++ Py.str (Py.len rows) ++
                  " factoids associated with it: " ++ Py.join "; " L), db)
      end
  end.

Definition factoidinfo (env : Env) (msg : Msg) (args : list string)
    : Dbs -> Outcome * Dbs :=
  on_channel env msg args (factoidinfo_body env msg).

(** ** Sequences of calls *)

Inductive Command :=
| Learn | WhatIs | Lock | Unlock | Unlearn | RandomFactoid | FactoidInfo.

(** One incoming command, with the collaborators as they are at that time. *)
Record Call := mkCall {
  c_env : Env;
  c_cmd : Command;
  c_msg : Msg;
  c_args : list string
}.

Definition command_body (cmd : Command)
    : Env -> Msg -> string -> list string -> Db -> Outcome * Db :=
  match cmd with
  | Learn => learn_body
  | WhatIs => whatis_body
  | Lock => set_locked_body 1
  | Unlock => set_locked_body 0
  | Unlearn => unlearn_body
  | RandomFactoid => randomfactoid_body
  | FactoidInfo => factoidinfo_body
  end.

Definition dispatch (c : Call) : Dbs -> Outcome * Dbs :=
  match c_cmd c with
  | Learn => learn (c_env c) (c_msg c) (c_args c)
  | WhatIs => whatis (c_env c) (c_msg c) (c_args c)
  | Lock => lock (c_env c) (c_msg c) (c_args c)
  | Unlock => unlock (c_env c) (c_msg c) (c_args c)
  | Unlearn => unlearn (c_env c) (c_msg c) (c_args c)
  | RandomFactoid => randomfactoid (c_env c) (c_msg c) (c_args c)
  | FactoidInfo => factoidinfo (c_env c) (c_msg c) (c_args c)
  end.

(** The databases after a sequence of calls, oldest first. *)
Fixpoint run (calls : list Call) (dbs : Dbs) : Dbs :=
  match calls with
  | [] => dbs
  | c :: r => run r (snd (dispatch c dbs))
  end.

(** ** Properties of a database *)

(** Number of factoid rows that belong to the key row [k]. *)
Definition count_for_key (db : Db) (k : KeyRow) : nat :=
  List.length (filter (fun f => f_key_id f =? k_id k) (factoids db)).

(** No key row is without factoids. *)
Definition no_empty_key (db : Db) : Prop :=
  forall k, In k (keys db) -> (0 < count_for_key db k)%nat.

Definition no_empty_keyb (db : Db) : bool :=
  forallb (fun k => Nat.ltb 0 (count_for_key db k)) (keys db).

(** The key row with a given text, if any. *)
Definition lookup (db : Db) (key : string) : option KeyRow :=
  hd_error (filter (fun k => (k_key k =? key)%string) (keys db)).

(** Strictly ascending integers: each element is below all later ones. *)
Fixpoint ascending (l : list Z) : Prop :=
  match l with
  | [] => True
  | x :: r => (forall y, In y r -> x < y) /\ ascending r
  end.

(** What the schema and the rowid rule give: both tables in strictly
    ascending id order and no key text twice. *)
Record wf (db : Db) : Prop := mkWf {
  wf_keys : ascending (map k_id (keys db));
  wf_text : NoDup (map k_key (keys db));
  wf_factoids : ascending (map f_id (factoids db))
}.

(** The factoid rows of a key row, in table order. *)
Definition facts_of (db : Db) (k : KeyRow) : list FactoidRow :=
  filter (fun f => f_key_id f =? k_id k) (factoids db).

(** The capability check of the call passes, whatever the channel. *)
Definition capable_call (c : Call) : Prop :=
  forall channel,
    checkCapability (c_env c) (prefix (c_msg c))
      (makeChannelCapability (c_env c) channel "factoids") = true.


(** ** Several callers inside the key resolution of [learn]

    Lines 96-101 are three statements on the shared connection: the
    SELECT (with the test of [rowcount]), the INSERT, and the second
    SELECT; [fetchone()] reads the caller's own cursor.  Callers that are
    inside these lines at the same time are modelled as an interleaving:
    a schedule names, step by step, the caller whose next statement runs,
    and each statement runs as a whole. *)

(** Where a caller is. *)
Inductive Pc :=
| AtSelect                          (* before line 96 *)
| AtInsert                          (* [rowcount == 0] seen, before line 98 *)
| AtReselect                        (* before line 100 *)
| Fetched (row : option (Z * Z)).   (* line 101: what [fetchone()] gave *)

(** The next statement of a caller. *)
Definition resolve_step (key : string) (pc : Pc) (db : Db) : Pc * Db :=
  match pc with
  | AtSelect =>
      match Sql.select_key db key with
      | [] => (AtInsert, db)
      | row :: _ => (Fetched (Some row), db)
      end
  | AtInsert => (AtReselect, Sql.insert_key db key)
  | AtReselect => (Fetched (hd_error (Sql.select_key db key)), db)
  | Fetched row => (Fetched row, db)
  end.

Fixpoint set_nth {A} (i : nat) (x : A) (l : list A) : list A :=
  match l, i with
  | [], _ => []
  | _ :: r, O => x :: r
  | a :: r, S j => a :: set_nth j x r
  end.

(** Caller [i] runs its next statement; a caller that is through, or a
    number that names no caller, leaves everything as it is. *)
Definition sched_step (key : string) (i : nat) (s : list Pc * Db)
    : list Pc * Db :=
  match nth_error (fst s) i with
  | None => s
  | Some pc =>
      let '(pc', db') := resolve_step key pc (snd s) in
      (set_nth i pc' (fst s), db')
  end.

Fixpoint run_sched (key : string) (sched : list nat) (s : list Pc * Db)
    : list Pc * Db :=
  match sched with
  | [] => s
  | i :: r => run_sched key r (sched_step key i s)
  end.

(** Every one of the [n] callers gets at least its three statements. *)
Definition complete (n : nat) (sched : list nat) : bool :=
  forallb (fun i => Nat.leb 3 (count_occ Nat.eq_dec sched i)) (seq 0 n).

Definition rank (pc : Pc) : nat :=
  match pc with
  | AtSelect => 0
  | AtInsert => 1
  | AtReselect => 2
  | Fetched _ => 3
  end.

(** The id the next key row of [db] gets, and [db] with that row for the
    text [key]. *)
Definition new_key_id (db : Db) : Z := Sql.next_rowid (map k_id (keys db)).

Definition with_new_key (db : Db) (key : string) : Db :=
  mkDb (keys db ++ [mkKey (new_key_id db) key 0]) (factoids db).

(** What a caller can be at, before ([false]) and after ([true]) the first
    INSERT has run; [id] is the id of the row that INSERT makes. *)
Definition at_ok (id : Z) (inserted : bool) (pc : Pc) : Prop :=
  match pc with
  | AtSelect | AtInsert => True
  | AtReselect => inserted = true
  | Fetched row => inserted = true /\ row = Some (id, 0)
  end.

(** The states an interleaving on the unseen text [key] goes through,
    starting from [db]. *)
Definition race_inv (db : Db) (key : string) (s : list Pc * Db) : Prop :=
  exists inserted : bool,
    snd s = (if inserted then with_new_key db key else db) /\
    Forall (at_ok (new_key_id db) inserted) (fst s).

(** Every factoid row belongs to a key row. *)
Definition no_orphan (db : Db) : Prop :=
  forall f, In f (factoids db) -> exists k, In k (keys db) /\ k_id k = f_key_id f.

(** ** A concrete bot for examples *)

Module Demo.

(** [getArgs] with its default arguments: the words joined by a space,
    ArgumentError on no word. *)
Definition join_args (args : list string) : Exn + string :=
  match args with
  | [] => inl ArgumentError
  | _ => inr (Py.join " " args)
  end.

(** A bot on one channel whose collaborators are constant; [cap] is the
    answer of the capability check. *)
Definition env (cap : bool) (now : Z) : Env :=
  {| getChannel := fun _ args => inr ("#chan", args);
     getArgs := join_args;
     makeChannelCapability := fun c s => c ++ "." ++ s;
     checkCapability := fun _ _ => cap;
     hasUser := fun _ => false;
     getUserName := fun p => p;
     time := now;
     replySuccess := "The operation succeeded.";
     replyNoCapability := fun c => "You don't have the " ++ c ++ " capability.";
     shrinkList := fun l _ _ => (0, l);
     random := 0;
     humanTimestamp := Py.str;
     repr := fun s => "'" ++ s ++ "'" |}.

Definition alice : Msg := mkMsg "alice!a@example.org" "alice".

Definition call (cap : bool) (cmd : Command) (args : list string) : Call :=
  mkCall (env cap 1000) cmd alice args.

(** The key "color" with the facts "blue" and "red". *)
Definition two_colors : Dbs :=
  run [call true Learn ["color"; "as"; "blue"];
       call true Learn ["color"; "as"; "red"]] noDbs.

(** The key "color" with the single fact "blue". *)
Definition one_color : Dbs :=
  run [call true Learn ["color"; "as"; "blue"]] noDbs.

(** The key "color", locked, with the facts "blue" and "red". *)
Definition locked_colors : Dbs :=
  run [call true Learn ["color"; "as"; "blue"];
       call true Learn ["color"; "as"; "red"];
       call true Lock ["color"]] noDbs.

(** The key "topic" with 25 facts. *)
Definition many : Dbs :=
  run (repeat (call true Learn ["topic"; "as"; "x"]) 25) noDbs.

End Demo.

(** ** Facts about lists and rowids *)

Section ListFacts.

Context {A : Type}.
Variable col : A -> Z.

Lemma ascending_app (l : list Z) (x : Z) :
  ascending l -> (forall y, In y l -> y < x) -> ascending (l ++ [x]).
Proof.
  induction l as [|a l IH]; simpl; intros Hl Hx.
  - split; [intros y []|exact I].
  - destruct Hl as [Ha Hl]. split.
    + intros y Hy. apply in_app_or in Hy. destruct Hy as [Hy|[<-|[]]].
      * now apply Ha.
      * apply Hx. now left.
    + apply IH; [assumption|]. intros y Hy. apply Hx. now right.
Qed.

Lemma ascending_filter (p : A -> bool) (l : list A) :
  ascending (map col l) -> ascending (map col (filter p l)).
Proof.
  induction l as [|a l IH]; simpl; [trivial|].
  intros [Ha Hl]. destruct (p a); simpl; [split|]; auto.
  intros y Hy. apply Ha. apply in_map_iff in Hy.
  destruct Hy as (z & <- & Hz). apply filter_In in Hz.
  apply in_map. tauto.
Qed.

Lemma ascending_NoDup (l : list Z) : ascending l -> NoDup l.
Proof.
  induction l as [|a l IH]; simpl; intros H; constructor.
  - intros Hin. destruct H as [H _]. specialize (H a Hin). lia.
  - apply IH, H.
Qed.

Lemma insert_by_least (x : A) (l : list A) :
  (forall y, In y l -> col x < col y) -> Sql.insert_by col x l = x :: l.
Proof.
  destruct l as [|y l]; simpl; [reflexivity|].
  intros H. specialize (H y (or_introl eq_refl)).
  destruct (col x <=? col y) eqn:E; [reflexivity|].
  apply Z.leb_gt in E. lia.
Qed.

(** Sorting a list that is already in ascending order changes nothing. *)
Lemma order_by_ascending (l : list A) :
  ascending (map col l) -> Sql.order_by col l = l.
Proof.
  induction l as [|a l IH]; simpl; [reflexivity|].
  intros [Ha Hl]. rewrite IH by assumption.
  apply insert_by_least. intros y Hy. apply Ha. now apply in_map.
Qed.

Lemma insert_by_length (x : A) (l : list A) :
  List.length (Sql.insert_by col x l) = S (List.length l).
Proof.
  induction l as [|y l IH]; simpl; [reflexivity|].
  destruct (col x <=? col y); simpl; congruence.
Qed.

Lemma order_by_length (l : list A) :
  List.length (Sql.order_by col l) = List.length l.
Proof.
  induction l as [|a l IH]; simpl; [reflexivity|].
  rewrite insert_by_length. congruence.
Qed.

Lemma flat_map_filter {B} (p : A -> bool) (g : A -> list B) (l : list A) :
  (forall a, p a = false -> g a = []) ->
  flat_map g l = flat_map g (filter p l).
Proof.
  intros Hg. induction l as [|a l IH]; simpl; [reflexivity|].
  destruct (p a) eqn:E; simpl; rewrite IH; [reflexivity|].
  now rewrite (Hg a E).
Qed.

End ListFacts.

Lemma fold_max_ge (l : list Z) (x : Z) :
  x <= fold_left Z.max l x /\ forall y, In y l -> y <= fold_left Z.max l x.
Proof.
  revert x. induction l as [|a l IH]; simpl; intros x.
  - split; [lia|intros y []].
  - destruct (IH (Z.max x a)) as [H1 H2]. split; [lia|].
    intros y [<-|Hy]; [lia|auto].
Qed.

(** The rowid of a new row is above every rowid of the table. *)
Lemma next_rowid_above (ids : list Z) (y : Z) :
  In y ids -> y < Sql.next_rowid ids.
Proof.
  destruct ids as [|x r]; [intros []|].
  unfold Sql.next_rowid.
  destruct (fold_max_ge r x) as [H1 H2].
  intros [->|Hy]; [lia|]. specialize (H2 y Hy). lia.
Qed.

Lemma ascending_next_rowid (ids : list Z) :
  ascending ids -> ascending (ids ++ [Sql.next_rowid ids]).
Proof.
  intros H. apply ascending_app; [assumption|]. apply next_rowid_above.
Qed.

(** ** Facts about the queries *)

Lemma count_for_key_facts_of (db : Db) (k : KeyRow) :
  count_for_key db k = List.length (facts_of db k).
Proof. reflexivity. Qed.

Lemma NoDup_text_filter (ks : list KeyRow) (key : string) :
  NoDup (map k_key ks) ->
  filter (fun k => (k_key k =? key)%string) ks =
  match hd_error (filter (fun k => (k_key k =? key)%string) ks) with
  | Some k => [k]
  | None => []
  end.
Proof.
  induction ks as [|a ks IH]; simpl; [reflexivity|].
  intros H. inversion H as [|? ? Hnin Hnd]; subst.
  destruct (k_key a =? key)%string eqn:E; simpl; [|auto].
  f_equal. apply String.eqb_eq in E.
  destruct (filter (fun k => (k_key k =? key)%string) ks) as [|b r] eqn:F;
    [reflexivity|].
  exfalso. apply Hnin.
  assert (Hb : In b (filter (fun k => (k_key k =? key)%string) ks))
    by (rewrite F; now left).
  apply filter_In in Hb. destruct Hb as [Hb Eb].
  apply String.eqb_eq in Eb. rewrite E, <- Eb. now apply in_map.
Qed.

Lemma lookup_filter (db : Db) (key : string) :
  NoDup (map k_key (keys db)) ->
  filter (fun k => (k_key k =? key)%string) (keys db) =
  match lookup db key with Some k => [k] | None => [] end.
Proof. apply NoDup_text_filter. Qed.

Lemma lookup_In (db : Db) (key : string) (k : KeyRow) :
  lookup db key = Some k -> In k (keys db) /\ k_key k = key.
Proof.
  unfold lookup. intros H.
  destruct (filter (fun k => (k_key k =? key)%string) (keys db)) as [|a r] eqn:F;
    [discriminate|].
  injection H as ->.
  assert (Hk : In k (filter (fun k => (k_key k =? key)%string) (keys db)))
    by (rewrite F; now left).
  apply filter_In in Hk. destruct Hk as [Hk E].
  apply String.eqb_eq in E. tauto.
Qed.

Lemma lookup_None (db : Db) (key : string) :
  lookup db key = None ->
  filter (fun k => (k_key k =? key)%string) (keys db) = [].
Proof.
  unfold lookup.
  destruct (filter (fun k => (k_key k =? key)%string) (keys db));
    [reflexivity|discriminate].
Qed.

Lemma select_key_lookup (db : Db) (key : string) :
  hd_error (Sql.select_key db key) =
  option_map (fun k => (k_id k, k_locked k)) (lookup db key).
Proof.
  unfold Sql.select_key, lookup.
  now destruct (filter (fun k => (k_key k =? key)%string) (keys db)).
Qed.

(** With the key text unique, the join of [unlearn] is the key row paired
    with its factoids in table order. *)
Lemma from_keys_factoids_lookup (db : Db) (key : string) :
  NoDup (map k_key (keys db)) ->
  Sql.from_keys_factoids db key =
  match lookup db key with
  | Some k => map (pair k) (facts_of db k)
  | None => []
  end.
Proof.
  intros Hnd. unfold Sql.from_keys_factoids.
  rewrite (flat_map_filter (fun k => (k_key k =? key)%string)).
  - rewrite lookup_filter by assumption.
    destruct (lookup db key) as [k|] eqn:L; simpl; [|reflexivity].
    rewrite app_nil_r. f_equal. unfold facts_of. apply filter_ext.
    intros f. unfold Sql.joins.
    destruct (lookup_In _ _ _ L) as [_ <-]. now rewrite String.eqb_refl.
  - intros k E. unfold Sql.joins. rewrite E. simpl.
    now induction (factoids db).
Qed.

(** The join of [whatis], likewise. *)
Lemma from_factoids_keys_lookup (db : Db) (key : string) :
  NoDup (map k_key (keys db)) ->
  Sql.from_factoids_keys db key =
  match lookup db key with
  | Some k => map (fun f => (f, k)) (facts_of db k)
  | None => []
  end.
Proof.
  intros Hnd. unfold Sql.from_factoids_keys, facts_of.
  assert (Hf : forall f,
    filter (fun k => Sql.joins key k f) (keys db) =
    match lookup db key with
    | Some k => if f_key_id f =? k_id k then [k] else []
    | None => []
    end).
  { intros f.
    transitivity (filter (fun k => f_key_id f =? k_id k)
                    (filter (fun k => (k_key k =? key)%string) (keys db))).
    - generalize (keys db). intros ks. induction ks as [|a ks IH]; simpl;
        [reflexivity|].
      unfold Sql.joins at 1.
      destruct (k_key a =? key)%string; simpl; rewrite IH;
        [|reflexivity].
      reflexivity.
    - rewrite lookup_filter by assumption.
      destruct (lookup db key); simpl; [|reflexivity].
      now destruct (f_key_id f =? k_id k). }
  induction (factoids db) as [|f fs IH]; simpl.
  - now destruct (lookup db key).
  - rewrite Hf, IH. destruct (lookup db key) as [k|]; [|reflexivity].
    destruct (f_key_id f =? k_id k); reflexivity.
Qed.

Lemma facts_of_ascending (db : Db) (k : KeyRow) :
  wf db -> ascending (map f_id (facts_of db k)).
Proof. intros H. apply ascending_filter, H. Qed.

(** In a well-formed database the ordered query of [whatis] lists the
    factoids of the key in table order. *)
Lemma key_factoids_lookup (db : Db) (key : string) :
  wf db ->
  key_factoids db key =
  match lookup db key with Some k => facts_of db k | None => [] end.
Proof.
  intros H. unfold key_factoids.
  rewrite from_factoids_keys_lookup by apply H.
  destruct (lookup db key) as [k|]; [|reflexivity].
  rewrite order_by_ascending.
  - rewrite map_map. simpl. apply map_id.
  - rewrite map_map. simpl. now apply facts_of_ascending.
Qed.

(** ** Well-formedness is kept by every statement and every command *)

Lemma NoDup_map_filter {A B} (g : A -> B) (p : A -> bool) (l : list A) :
  NoDup (map g l) -> NoDup (map g (filter p l)).
Proof.
  induction l as [|a l IH]; simpl; [trivial|].
  intros H. inversion H as [|? ? Hnin Hnd]; subst.
  destruct (p a); simpl; [constructor|]; auto.
  intros Hin. apply Hnin. apply in_map_iff in Hin.
  destruct Hin as (z & <- & Hz). apply filter_In in Hz.
  apply in_map. tauto.
Qed.

Lemma existsb_text_false (ks : list KeyRow) (key : string) :
  existsb (fun k => (k_key k =? key)%string) ks = false ->
  ~ In key (map k_key ks).
Proof.
  intros E Hin. apply in_map_iff in Hin. destruct Hin as (k & <- & Hk).
  assert (existsb (fun k0 => (k_key k0 =? k_key k)%string) ks = true).
  { apply existsb_exists. exists k. split; [assumption|].
    apply String.eqb_refl. }
  congruence.
Qed.

Lemma NoDup_snoc {A} (l : list A) (x : A) :
  NoDup l -> ~ In x l -> NoDup (l ++ [x]).
Proof.
  intros Hl Hx. apply NoDup_app; [assumption|constructor; [intros []|constructor]|].
  intros a Ha [<-|[]]. contradiction.
Qed.

Lemma insert_key_wf (db : Db) (key : string) :
  wf db -> wf (Sql.insert_key db key).
Proof.
  intros [H1 H2 H3]. unfold Sql.insert_key.
  destruct (existsb _ (keys db)) eqn:E; [now constructor|].
  constructor; simpl; [| |assumption]; rewrite map_app; simpl.
  - now apply ascending_next_rowid.
  - apply NoDup_snoc; [assumption|]. now apply existsb_text_false.
Qed.

Lemma insert_factoid_wf (db : Db) (id : Z) (name : string) (t : Z)
    (fact : string) :
  wf db -> wf (Sql.insert_factoid db id name t fact).
Proof.
  intros [H1 H2 H3]. constructor; simpl; try assumption.
  rewrite map_app. simpl. now apply ascending_next_rowid.
Qed.

Lemma update_locked_wf (db : Db) (key : string) (v : Z) :
  wf db -> wf (Sql.update_locked db key v).
Proof.
  intros [H1 H2 H3].
  constructor; simpl; try assumption; rewrite map_map.
  - erewrite map_ext; [exact H1|].
    intros k. now destruct (k_key k =? key)%string.
  - erewrite map_ext; [exact H2|].
    intros k. now destruct (k_key k =? key)%string.
Qed.

Lemma delete_factoids_key_id_wf (db : Db) (id : Z) :
  wf db -> wf (Sql.delete_factoids_key_id db id).
Proof.
  intros [H1 H2 H3]. constructor; simpl; try assumption.
  now apply ascending_filter.
Qed.

Lemma delete_factoid_id_wf (db : Db) (id : Z) :
  wf db -> wf (Sql.delete_factoid_id db id).
Proof.
  intros [H1 H2 H3]. constructor; simpl; try assumption.
  now apply ascending_filter.
Qed.

Lemma trigger_ascending (old : list KeyRow) (fs : list FactoidRow) :
  ascending (map f_id fs) ->
  ascending (map f_id
    (fold_left (fun fs o => filter (fun f => negb (f_key_id f =? k_id o)) fs)
               old fs)).
Proof.
  revert fs. induction old as [|o old IH]; simpl; intros fs H; [assumption|].
  apply IH. now apply ascending_filter.
Qed.

Lemma delete_keys_key_wf (db : Db) (key : string) :
  wf db -> wf (Sql.delete_keys_key db key).
Proof.
  intros [H1 H2 H3]. constructor; simpl.
  - now apply ascending_filter.
  - now apply NoDup_map_filter.
  - now apply trigger_ascending.
Qed.

Create HintDb wfdb.

#[local] Hint Resolve insert_key_wf insert_factoid_wf update_locked_wf
  delete_factoids_key_id_wf delete_factoid_id_wf delete_keys_key_wf : wfdb.

Lemma resolve_key_wf (db : Db) (key : string) :
  wf db -> wf (snd (resolve_key db key)).
Proof.
  intros H. unfold resolve_key.
  destruct (Sql.select_key db key); simpl; auto with wfdb.
Qed.

Lemma learn_body_wf env msg channel args db :
  wf db -> wf (snd (learn_body env msg channel args db)).
Proof.
  intros H. unfold learn_body.
  destruct (Py.index "as" args) as [i|]; [|assumption].
  pose proof (resolve_key_wf db
    (Py.join " " (firstn i (Py.pop_at i args))) H) as Hr.
  destruct (resolve_key db _) as [[[id locked]|] db']; simpl in *;
    [|assumption].
  destruct (locked =? 0); [|assumption].
  destruct (checkCapability env _ _); simpl; auto with wfdb.
Qed.

Lemma whatis_body_unchanged env msg channel args db :
  snd (whatis_body env msg channel args db) = db.
Proof.
  unfold whatis_body. destruct (getArgs env args); [reflexivity|].
  destruct (Py.len _ =? 0); [reflexivity|].
  destruct (shrinkList env _ _ _) as [shrunk l].
  now destruct (negb (shrunk =? 0)).
Qed.

Lemma randomfactoid_body_unchanged env msg channel args db :
  snd (randomfactoid_body env msg channel args db) = db.
Proof.
  unfold randomfactoid_body. destruct (factoids db); [reflexivity|].
  now destruct (filter _ (keys db)).
Qed.

Lemma factoidinfo_body_unchanged env msg channel args db :
  snd (factoidinfo_body env msg channel args db) = db.
Proof.
  unfold factoidinfo_body. destruct (getArgs env args); [reflexivity|].
  now destruct (Sql.select_key db s) as [|[id locked] r].
Qed.

Lemma set_locked_body_wf v env msg channel args db :
  wf db -> wf (snd (set_locked_body v env msg channel args db)).
Proof.
  intros H. unfold set_locked_body.
  destruct (getArgs env args); [assumption|].
  destruct (checkCapability env _ _); simpl; auto with wfdb.
Qed.

Lemma unlearn_body_wf env msg channel args db :
  wf db -> wf (snd (unlearn_body env msg channel args db)).
Proof.
  intros H. unfold unlearn_body, unlearn_rest.
  destruct (unlearn_number args) as [e|[number args']]; [assumption|].
  destruct (getArgs env args') as [e|key]; [assumption|].
  destruct (checkCapability env _ _); [|assumption].
  destruct (Py.len _ =? 0); [assumption|].
  destruct (Py.len _ =? 1).
  - destruct (map _ _) as [|[id x] r]; simpl; auto with wfdb.
  - destruct number as [n|]; [|assumption].
    destruct (Py.getitem _ n) as [[x id]|]; simpl; auto with wfdb.
Qed.

Lemma command_body_wf cmd env msg channel args db :
  wf db -> wf (snd (command_body cmd env msg channel args db)).
Proof.
  intros H. destruct cmd; simpl.
  - now apply learn_body_wf.
  - now rewrite whatis_body_unchanged.
  - now apply set_locked_body_wf.
  - now apply set_locked_body_wf.
  - now apply unlearn_body_wf.
  - now rewrite randomfactoid_body_unchanged.
  - now rewrite factoidinfo_body_unchanged.
Qed.

Lemma dispatch_on_channel (c : Call) :
  dispatch c =
  on_channel (c_env c) (c_msg c) (c_args c)
             (command_body (c_cmd c) (c_env c) (c_msg c)).
Proof. unfold dispatch. now destruct (c_cmd c). Qed.

(** A property of single databases that every body keeps is kept, on every
    channel, by the command around it. *)
Lemma on_channel_keeps (P : Db -> Prop) env msg args body dbs :
  (forall channel args' db, P db -> P (snd (body channel args' db))) ->
  (forall c, P (getDb dbs c)) ->
  forall c, P (getDb (snd (on_channel env msg args body dbs)) c).
Proof.
  intros Hb Hd c. unfold on_channel.
  destruct (getChannel env msg args) as [e|[channel args']]; [apply Hd|].
  specialize (Hb channel args' (getDb dbs channel) (Hd channel)).
  destruct (body channel args' (getDb dbs channel)) as [out db']. simpl in *.
  unfold getDb, setDb. destruct (c =? channel)%string; [assumption|apply Hd].
Qed.

Lemma makeDb_wf : wf makeDb.
Proof. constructor; simpl; [exact I|constructor|exact I]. Qed.

(** Every database reached from the empty bot is well formed. *)
Lemma run_wf (calls : list Call) (dbs : Dbs) :
  (forall c, wf (getDb dbs c)) ->
  forall c, wf (getDb (run calls dbs) c).
Proof.
  revert dbs. induction calls as [|call calls IH]; simpl; intros dbs H;
    [assumption|].
  apply IH. rewrite dispatch_on_channel.
  apply on_channel_keeps; [|assumption].
  intros. now apply command_body_wf.
Qed.

Lemma reachable_wf (calls : list Call) (c : string) :
  wf (getDb (run calls noDbs) c).
Proof. apply run_wf. intros c'. apply makeDb_wf. Qed.

(** ** Channels *)

Lemma on_channel_inr env msg args body dbs channel args' :
  getChannel env msg args = inr (channel, args') ->
  on_channel env msg args body dbs =
  (fst (body channel args' (getDb dbs channel)),
   setDb dbs channel (snd (body channel args' (getDb dbs channel)))).
Proof.
  intros H. unfold on_channel. rewrite H.
  now destruct (body channel args' (getDb dbs channel)).
Qed.

Lemma getDb_setDb_same dbs channel db :
  getDb (setDb dbs channel db) channel = db.
Proof. unfold getDb, setDb. now rewrite String.eqb_refl. Qed.

Lemma getDb_setDb_other dbs channel db c :
  c <> channel -> getDb (setDb dbs channel db) c = getDb dbs c.
Proof.
  intros H. unfold getDb, setDb.
  destruct (c =? channel)%string eqn:E; [|reflexivity].
  apply String.eqb_eq in E. contradiction.
Qed.

Lemma getDb_setDb_id dbs channel c :
  getDb (setDb dbs channel (getDb dbs channel)) c = getDb dbs c.
Proof.
  unfold getDb, setDb. destruct (c =? channel)%string eqn:E; [|reflexivity].
  apply String.eqb_eq in E. now subst.
Qed.

(** ** [unlearn]: what the command does once its arguments are read *)

Lemma unlearn_number_snoc (words : list string) (word : string) :
  unlearn_number (words ++ [word]) =
  match Py.int word with
  | Some n => inr (Some n, words)
  | None => inl ValueError
  end.
Proof.
  unfold unlearn_number. rewrite rev_app_distr. simpl.
  now rewrite removelast_last.
Qed.

Lemma len_map {A B} (g : A -> B) (l : list A) : Py.len (map g l) = Py.len l.
Proof. unfold Py.len. now rewrite length_map. Qed.

Lemma getitem_map {A B} (g : A -> B) (l : list A) (n : Z) :
  Py.getitem (map g l) n = option_map g (Py.getitem l n).
Proof.
  unfold Py.getitem. rewrite len_map.
  destruct (0 <=? n); [apply nth_error_map|].
  destruct (0 <=? Py.len l + n); [apply nth_error_map|reflexivity].
Qed.

(** Two rows of a table in ascending id order with the same id are the same
    row. *)
Lemma ascending_same_id (fs : list FactoidRow) (f g : FactoidRow) :
  ascending (map f_id fs) -> In f fs -> In g fs -> f_id g = f_id f -> g = f.
Proof.
  induction fs as [|a fs IH]; simpl; [intros _ []|].
  intros [Ha Hfs] [->|Hf] [->|Hg] E; auto.
  - specialize (Ha (f_id g) (in_map f_id _ _ Hg)). lia.
  - specialize (Ha (f_id f) (in_map f_id _ _ Hf)). lia.
Qed.

(** When [f] is the only factoid of the key row [k], deleting by [key_id]
    and deleting by [id] remove the same row. *)
Lemma delete_only_fact (db : Db) (k : KeyRow) (f : FactoidRow) :
  wf db -> facts_of db k = [f] ->
  filter (fun g => negb (f_key_id g =? k_id k)) (factoids db) =
  filter (fun g => negb (f_id g =? f_id f)) (factoids db).
Proof.
  intros H F. apply filter_ext_in. intros g Hg. f_equal.
  assert (Hf : In f (facts_of db k)) by (rewrite F; now left).
  apply filter_In in Hf. destruct Hf as [Hf Ef].
  destruct (f_key_id g =? k_id k) eqn:E.
  - assert (Hg' : In g (facts_of db k)) by (apply filter_In; tauto).
    rewrite F in Hg'. destruct Hg' as [<-|[]]. symmetry. apply Z.eqb_refl.
  - symmetry. apply Z.eqb_neq. intros Eid.
    rewrite (ascending_same_id _ f g (wf_factoids _ H) Hf Hg Eid) in E.
    congruence.
Qed.

(** The database after the one-factoid branch of [unlearn]. *)
Lemma delete_last_fact (db : Db) (key : string) (k : KeyRow) (f : FactoidRow) :
  wf db -> lookup db key = Some k -> facts_of db k = [f] ->
  Sql.delete_keys_key (Sql.delete_factoids_key_id db (k_id k)) key =
  mkDb (filter (fun k' => negb (k_key k' =? key)%string) (keys db))
       (filter (fun g => negb (f_id g =? f_id f)) (factoids db)).
Proof.
  intros H L F. unfold Sql.delete_keys_key, Sql.delete_factoids_key_id. simpl.
  f_equal. rewrite lookup_filter by apply H. rewrite L. simpl.
  rewrite <- (delete_only_fact db k f H F).
  generalize (factoids db). intros fs.
  induction fs as [|a fs IH]; simpl; [reflexivity|].
  destruct (negb (f_key_id a =? k_id k)) eqn:E; simpl; rewrite ?E, IH;
    reflexivity.
Qed.

(** The rest of [unlearn] for a caller with the capability and words that
    name an existing key, whatever [number] is. *)
Lemma unlearn_rest_lookup env msg channel number words key k db :
  getArgs env words = inr key ->
  checkCapability env (prefix msg)
    (makeChannelCapability env channel "factoids") = true ->
  wf db -> lookup db key = Some k ->
  unlearn_rest env msg channel number words db =
  match facts_of db k with
  | [] => (Error "There is no such factoid.", db)
  | [f] =>
      (Reply (replySuccess env),
       mkDb (filter (fun k' => negb (k_key k' =? key)%string) (keys db))
            (filter (fun g => negb (f_id g =? f_id f)) (factoids db)))
  | fs =>
      match number with
      | Some n =>
          match Py.getitem fs n with
          | None => (Error "Invalid factoid number.", db)
          | Some f =>
              (Reply (replySuccess env), Sql.delete_factoid_id db (f_id f))
          end
      | None =>
          (Error (Py.str (Py.len fs) ++ " factoids have that key.  " ++
                  "Please specify which one to remove."), db)
      end
  end.
Proof.
  intros Hk Hc H L. unfold unlearn_rest. rewrite Hk, Hc.
  rewrite from_keys_factoids_lookup by apply H. rewrite L.
  rewrite map_map. simpl fst. simpl snd. rewrite len_map.
  destruct (facts_of db k) as [|f [|g r]] eqn:F.
  - reflexivity.
  - simpl. now rewrite (delete_last_fact db key k f H L F).
  - assert (E0 : (Py.len (f :: g :: r) =? 0) = false)
      by (apply Z.eqb_neq; unfold Py.len; simpl List.length; lia).
    assert (E1 : (Py.len (f :: g :: r) =? 1) = false)
      by (apply Z.eqb_neq; unfold Py.len; simpl List.length; lia).
    rewrite E0, E1. destruct number as [n|]; [|reflexivity].
    rewrite getitem_map.
    now destruct (Py.getitem (f :: g :: r) n).
Qed.

(** [unlearn] with the capability, a last word that reads as the number [n]
    and the remaining words naming an existing key. *)
Lemma unlearn_body_number env msg channel words word n key k db :
  Py.int word = Some n ->
  getArgs env words = inr key ->
  checkCapability env (prefix msg)
    (makeChannelCapability env channel "factoids") = true ->
  wf db -> lookup db key = Some k ->
  unlearn_body env msg channel (words ++ [word]) db =
  match facts_of db k with
  | [] => (Error "There is no such factoid.", db)
  | [f] =>
      (Reply (replySuccess env),
       mkDb (filter (fun k' => negb (k_key k' =? key)%string) (keys db))
            (filter (fun g => negb (f_id g =? f_id f)) (factoids db)))
  | fs =>
      match Py.getitem fs n with
      | None => (Error "Invalid factoid number.", db)
      | Some f => (Reply (replySuccess env), Sql.delete_factoid_id db (f_id f))
      end
  end.
Proof.
  intros Hn Hk Hc H L. unfold unlearn_body.
  rewrite unlearn_number_snoc, Hn.
  rewrite (unlearn_rest_lookup env msg channel (Some n) words key k db
             Hk Hc H L).
  now destruct (facts_of db k) as [|f [|g r]].
Qed.

Lemma getitem_nat {A} (l : list A) (i : nat) :
  Py.getitem l (Z.of_nat i) = nth_error l i.
Proof.
  unfold Py.getitem.
  assert (E : (0 <=? Z.of_nat i) = true) by (apply Z.leb_le; lia).
  now rewrite E, Nat2Z.id.
Qed.

(** The [i]-th factoid of a key, once [unlearn] has been given the number
    [i], is the row that goes; the key row goes with its last factoid. *)
Lemma unlearn_body_nth env msg channel words word (i : nat) key k f db :
  Py.int word = Some (Z.of_nat i) ->
  getArgs env words = inr key ->
  checkCapability env (prefix msg)
    (makeChannelCapability env channel "factoids") = true ->
  wf db -> lookup db key = Some k ->
  nth_error (facts_of db k) i = Some f ->
  unlearn_body env msg channel (words ++ [word]) db =
  (Reply (replySuccess env),
   mkDb (if Nat.eqb (count_for_key db k) 1
         then filter (fun k' => negb (k_key k' =? key)%string) (keys db)
         else keys db)
        (filter (fun g => negb (f_id g =? f_id f)) (factoids db))).
Proof.
  intros Hn Hk Hc H L Hf.
  rewrite (unlearn_body_number env msg channel words word _ key k db
             Hn Hk Hc H L).
  rewrite count_for_key_facts_of.
  destruct (facts_of db k) as [|a [|b r]] eqn:F.
  - now destruct i.
  - destruct i as [|[|i]]; simpl in Hf; try discriminate.
    now injection Hf as ->.
  - rewrite getitem_nat, Hf. reflexivity.
Qed.

(** ** [learn] on a locked key *)

Lemma resolve_key_existing (db : Db) (key : string) (k : KeyRow) :
  lookup db key = Some k ->
  resolve_key db key = (Some (k_id k, k_locked k), db).
Proof.
  unfold lookup, resolve_key, Sql.select_key. intros L.
  destruct (filter (fun k => (k_key k =? key)%string) (keys db));
    [discriminate|].
  simpl in *. now injection L as ->.
Qed.

(** C5.  When the key that [learn] reads from its arguments already has a
    row whose [locked] column is set, the command answers "That factoid is
    locked." and no database changes: no factoid row is written, for this
    key or for any other. *)
Theorem learn_locked_key_unchanged env msg args dbs channel args' i k :
  getChannel env msg args = inr (channel, args') ->
  Py.index "as" args' = Some i ->
  lookup (getDb dbs channel)
         (Py.join " " (firstn i (Py.pop_at i args'))) = Some k ->
  k_locked k <> 0 ->
  fst (learn env msg args dbs) = Error "That factoid is locked." /\
  (forall c, getDb (snd (learn env msg args dbs)) c = getDb dbs c) /\
  (forall c, factoids (getDb (snd (learn env msg args dbs)) c) =
             factoids (getDb dbs c)).
Proof.
  intros Hc Hi L Hl. unfold learn.
  rewrite (on_channel_inr _ _ _ _ _ _ _ Hc). simpl fst. simpl snd.
  assert (E : learn_body env msg channel args' (getDb dbs channel) =
              (Error "That factoid is locked.", getDb dbs channel)).
  { unfold learn_body. rewrite Hi, (resolve_key_existing _ _ _ L).
    apply Z.eqb_neq in Hl. now rewrite Hl. }
  rewrite E. simpl. split; [reflexivity|].
  split; intros c; now rewrite getDb_setDb_id.
Qed.

Lemma learn_locked_key_unchanged_witness :
  fst (learn (Demo.env true 7) Demo.alice ["color"; "as"; "green"]
         Demo.locked_colors) = Error "That factoid is locked." /\
  (forall c,
     getDb (snd (learn (Demo.env true 7) Demo.alice ["color"; "as"; "green"]
                   Demo.locked_colors)) c = getDb Demo.locked_colors c) /\
  (forall c,
     factoids
       (getDb (snd (learn (Demo.env true 7) Demo.alice
                      ["color"; "as"; "green"] Demo.locked_colors)) c) =
     factoids (getDb Demo.locked_colors c)).
Proof.
  apply (learn_locked_key_unchanged (Demo.env true 7) Demo.alice
           ["color"; "as"; "green"] Demo.locked_colors "#chan"
           ["color"; "as"; "green"] 1%nat (mkKey 1 "color" 1)).
  - reflexivity.
  - reflexivity.
  - reflexivity.
  - simpl. lia.
Defined.

(** ** [lock] and [unlock] *)

Lemma update_locked_absent (db : Db) (key : string) (v : Z) :
  lookup db key = None -> Sql.update_locked db key v = db.
Proof.
  intros L. apply lookup_None in L. unfold Sql.update_locked.
  destruct db as [ks fs]. simpl in *. f_equal.
  induction ks as [|a ks IH]; simpl in *; [reflexivity|].
  destruct (k_key a =? key)%string; [discriminate|].
  now rewrite IH.
Qed.

Lemma lookup_update_locked (db : Db) (key : string) (v : Z) :
  lookup (Sql.update_locked db key v) key =
  option_map (fun k => mkKey (k_id k) (k_key k) v) (lookup db key).
Proof.
  unfold lookup, Sql.update_locked. simpl.
  induction (keys db) as [|a ks IH]; simpl; [reflexivity|].
  destruct (k_key a =? key)%string eqn:E; simpl; rewrite E; [reflexivity|].
  exact IH.
Qed.

(** C4, as the code has it.  [lock] and [unlock] by a caller with the
    capability answer with the success reply whether or not a key row has
    the text: when none has, the database is left as it was, and when one
    has, its [locked] column becomes 1 (lock) or 0 (unlock).  There is no
    not-found answer. *)
Theorem lock_unlock_always_succeed env msg args dbs channel args' key :
  getChannel env msg args = inr (channel, args') ->
  getArgs env args' = inr key ->
  checkCapability env (prefix msg)
    (makeChannelCapability env channel "factoids") = true ->
  let db := getDb dbs channel in
  fst (lock env msg args dbs) = Reply (replySuccess env) /\
  fst (unlock env msg args dbs) = Reply (replySuccess env) /\
  (lookup db key = None ->
   forall c, getDb (snd (lock env msg args dbs)) c = getDb dbs c /\
             getDb (snd (unlock env msg args dbs)) c = getDb dbs c) /\
  (forall k, lookup db key = Some k ->
   lookup (getDb (snd (lock env msg args dbs)) channel) key =
     Some (mkKey (k_id k) (k_key k) 1) /\
   lookup (getDb (snd (unlock env msg args dbs)) channel) key =
     Some (mkKey (k_id k) (k_key k) 0)).
Proof.
  intros Hc Hk Hcap db. unfold lock, unlock.
  rewrite !(on_channel_inr _ _ _ _ _ _ _ Hc). simpl fst. simpl snd.
  unfold set_locked_body. rewrite Hk, Hcap. simpl fst. simpl snd.
  fold db. repeat split.
  - rewrite (update_locked_absent _ _ _ H). apply getDb_setDb_id.
  - rewrite (update_locked_absent _ _ _ H). apply getDb_setDb_id.
  - rewrite getDb_setDb_same, lookup_update_locked, H. reflexivity.
  - rewrite getDb_setDb_same, lookup_update_locked, H. reflexivity.
Qed.

Lemma lock_unlock_always_succeed_witness :
  fst (lock (Demo.env true 7) Demo.alice ["color"] Demo.two_colors) =
    Reply "The operation succeeded." /\
  lookup (getDb (snd (lock (Demo.env true 7) Demo.alice ["color"]
                        Demo.two_colors)) "#chan") "color" =
    Some (mkKey 1 "color" 1).
Proof.
  destruct (lock_unlock_always_succeed (Demo.env true 7) Demo.alice
              ["color"] Demo.two_colors "#chan" ["color"] "color"
              eq_refl eq_refl eq_refl) as (H1 & _ & _ & H4).
  split; [exact H1|].
  exact (proj1 (H4 (mkKey 1 "color" 0) eq_refl)).
Defined.

(** C4 as stated fails: nothing is stored for "foo", yet [lock] and
    [unlock] of "foo" by a caller with the capability answer with the
    success reply, not with an error. *)
Lemma lock_absent_key_reports_success :
  lookup (getDb noDbs "#chan") "foo" = None /\
  fst (lock (Demo.env true 7) Demo.alice ["foo"] noDbs) =
    Reply (replySuccess (Demo.env true 7)) /\
  fst (unlock (Demo.env true 7) Demo.alice ["foo"] noDbs) =
    Reply (replySuccess (Demo.env true 7)) /\
  ~ (exists s, fst (lock (Demo.env true 7) Demo.alice ["foo"] noDbs) =
               Error s).
Proof.
  repeat split; try reflexivity. intros [s Hs]. discriminate Hs.
Qed.

(** ** [unlearn] with a position *)

Lemma key_factoids_nth_lookup (db : Db) (key : string) (i : nat)
    (f : FactoidRow) :
  wf db -> nth_error (key_factoids db key) i = Some f ->
  exists k, lookup db key = Some k /\ nth_error (facts_of db k) i = Some f.
Proof.
  intros H. rewrite (key_factoids_lookup db key H).
  destruct (lookup db key) as [k|]; [now exists k|].
  now destruct i.
Qed.

Lemma key_factoids_ascending (db : Db) (key : string) :
  wf db -> ascending (map f_id (key_factoids db key)).
Proof.
  intros H. rewrite (key_factoids_lookup db key H).
  destruct (lookup db key); [now apply facts_of_ascending|exact I].
Qed.

(** Removing the rows with the id of [f] from a table in ascending id order
    removes [f] and nothing else. *)
Lemma filter_id_exact (fs : list FactoidRow) (f g : FactoidRow) :
  ascending (map f_id fs) -> In f fs ->
  In g (filter (fun g => negb (f_id g =? f_id f)) fs) <-> In g fs /\ g <> f.
Proof.
  intros Ha Hf. rewrite filter_In. split; intros [Hg E]; split; trivial.
  - intros ->. now rewrite Z.eqb_refl in E.
  - destruct (f_id g =? f_id f) eqn:Eid; [|reflexivity].
    apply Z.eqb_eq in Eid. exfalso. apply E.
    now apply (ascending_same_id fs f g).
Qed.

(** C6.  In a well-formed database, let [f] be the [i]-th row (from zero)
    of the factoids of a key in ascending id order, the list of which
    [whatis] shows the first twenty.  [unlearn] called with the key and the
    number [i] by a caller with the capability answers with the success
    reply and removes [f] from the factoids table and no other row. *)
Theorem unlearn_position_deletes_ith env msg args dbs channel
    (words : list string) (word : string) (i : nat) key f :
  getChannel env msg args = inr (channel, (words ++ [word])%list) ->
  Py.int word = Some (Z.of_nat i) ->
  getArgs env words = inr key ->
  checkCapability env (prefix msg)
    (makeChannelCapability env channel "factoids") = true ->
  wf (getDb dbs channel) ->
  nth_error (key_factoids (getDb dbs channel) key) i = Some f ->
  let db := getDb dbs channel in
  let db' := getDb (snd (unlearn env msg args dbs)) channel in
  fst (unlearn env msg args dbs) = Reply (replySuccess env) /\
  ascending (map f_id (key_factoids db key)) /\
  whatis_rows db key = map f_fact (firstn 20 (key_factoids db key)) /\
  factoids db' = filter (fun g => negb (f_id g =? f_id f)) (factoids db) /\
  (forall g, In g (factoids db') <-> In g (factoids db) /\ g <> f) /\
  In f (factoids db).
Proof.
  intros Hc Hn Hk Hcap H Hf db db'.
  destruct (key_factoids_nth_lookup _ _ _ _ H Hf) as (k & L & Hfk).
  assert (Hin : In f (factoids db)).
  { apply nth_error_In in Hfk. apply filter_In in Hfk. tauto. }
  assert (E : factoids db' =
              filter (fun g => negb (f_id g =? f_id f)) (factoids db)).
  { unfold db', unlearn. rewrite (on_channel_inr _ _ _ _ _ _ _ Hc).
    simpl snd. rewrite getDb_setDb_same.
    now rewrite (unlearn_body_nth env msg channel words word i key k f _
                   Hn Hk Hcap H L Hfk). }
  split; [|split; [|split; [|split; [|split]]]]; trivial.
  - unfold unlearn. rewrite (on_channel_inr _ _ _ _ _ _ _ Hc). simpl fst.
    now rewrite (unlearn_body_nth env msg channel words word i key k f _
                   Hn Hk Hcap H L Hfk).
  - now apply key_factoids_ascending.
  - intros g. rewrite E. apply filter_id_exact; [apply H|assumption].
Qed.

Lemma unlearn_position_deletes_ith_witness :
  fst (unlearn (Demo.env true 7) Demo.alice ["color"; "1"] Demo.two_colors) =
    Reply "The operation succeeded." /\
  factoids (getDb (snd (unlearn (Demo.env true 7) Demo.alice ["color"; "1"]
                          Demo.two_colors)) "#chan") =
    [mkFactoid 1 1 "alice" 1000 "blue"].
Proof.
  destruct (unlearn_position_deletes_ith (Demo.env true 7) Demo.alice
              ["color"; "1"] Demo.two_colors "#chan" ["color"] "1" 1%nat
              "color" (mkFactoid 2 1 "alice" 1000 "red")
              eq_refl eq_refl eq_refl eq_refl (reachable_wf _ "#chan")
              eq_refl) as (H1 & _ & _ & H4 & _).
  split; [exact H1|]. rewrite H4. reflexivity.
Defined.

(** ** [unlearn] never reads the [locked] column *)

Lemma results_update_locked (db : Db) (key' : string) (v : Z) (key : string) :
  map (fun r => (k_id (fst r), f_id (snd r)))
      (Sql.from_keys_factoids (Sql.update_locked db key' v) key) =
  map (fun r => (k_id (fst r), f_id (snd r))) (Sql.from_keys_factoids db key).
Proof.
  unfold Sql.from_keys_factoids, Sql.update_locked. simpl.
  induction (keys db) as [|a ks IH]; simpl; [reflexivity|].
  rewrite !map_app, IH. f_equal. rewrite !map_map. simpl.
  destruct (k_key a =? key')%string; [|reflexivity].
  unfold Sql.joins. simpl. reflexivity.
Qed.

Lemma delete_keys_key_update_locked (db : Db) (key' : string) (v : Z)
    (key : string) :
  Sql.delete_keys_key (Sql.update_locked db key' v) key =
  Sql.update_locked (Sql.delete_keys_key db key) key' v.
Proof.
  unfold Sql.delete_keys_key, Sql.update_locked. simpl. f_equal.
  - induction (keys db) as [|a ks IH]; simpl; [reflexivity|].
    destruct (k_key a =? key')%string eqn:E1; simpl;
      destruct (k_key a =? key)%string eqn:E2; simpl;
      rewrite ?E1, IH; reflexivity.
  - generalize (factoids db).
    induction (keys db) as [|a ks IH]; simpl; intros fs; [reflexivity|].
    destruct (k_key a =? key')%string eqn:E1; simpl;
      destruct (k_key a =? key)%string eqn:E2; simpl; apply IH.
Qed.

(** Writing the [locked] column of any key before [unlearn] changes neither
    its answer nor what it deletes. *)
Lemma unlearn_body_update_locked env msg channel args db key' v :
  unlearn_body env msg channel args (Sql.update_locked db key' v) =
  (fst (unlearn_body env msg channel args db),
   Sql.update_locked (snd (unlearn_body env msg channel args db)) key' v).
Proof.
  unfold unlearn_body.
  destruct (unlearn_number args) as [e|[number args']]; [reflexivity|].
  unfold unlearn_rest.
  destruct (getArgs env args') as [e|key]; [reflexivity|].
  destruct (checkCapability env _ _); [|reflexivity].
  rewrite results_update_locked.
  destruct (Py.len _ =? 0); [reflexivity|].
  destruct (Py.len _ =? 1).
  - destruct (map _ (Sql.from_keys_factoids db key)) as [|[id x] r];
      [reflexivity|].
    simpl. f_equal.
    change (Sql.delete_factoids_key_id (Sql.update_locked db key' v) id)
      with (Sql.update_locked (Sql.delete_factoids_key_id db id) key' v).
    apply delete_keys_key_update_locked.
  - destruct number as [n|]; [|reflexivity].
    now destruct (Py.getitem _ n) as [[x id]|].
Qed.

(** ** [whatis] *)

Lemma whatis_factoids_length (counter : Z) (rows : list string) :
  List.length (whatis_factoids counter rows) = List.length rows.
Proof.
  revert counter. induction rows as [|r rows IH]; simpl; intros counter;
    [reflexivity|].
  now rewrite IH.
Qed.

Lemma In_firstn_In {A} (n : nat) (l : list A) (y : A) :
  In y (firstn n l) -> In y l.
Proof.
  revert n. induction l as [|a l IH]; intros [|n]; simpl; try tauto.
  intros [->|Hy]; [now left|right; eauto].
Qed.

Lemma ascending_firstn (n : nat) (l : list Z) :
  ascending l -> ascending (firstn n l).
Proof.
  revert n. induction l as [|a l IH]; intros [|n]; simpl; trivial.
  intros [Ha Hl]. split; [|now apply IH].
  intros y Hy. apply Ha. now apply (In_firstn_In n).
Qed.

(** C2, as the code has it.  For a key with [N] stored factoids, [whatis]
    fetches the first [min N 20] of them in ascending id order, and the
    total it computes ([totalResults]) is the number of rows fetched,
    [min N 20], not [N].  The "results shown out of" remark is added when
    [shrinkList] shortened the list, whatever [N] is, and both of its
    numbers come from the rows fetched. *)
Theorem whatis_first_twenty env msg args dbs channel args' key k :
  getChannel env msg args = inr (channel, args') ->
  getArgs env args' = inr key ->
  wf (getDb dbs channel) ->
  lookup (getDb dbs channel) key = Some k ->
  (0 < count_for_key (getDb dbs channel) k)%nat ->
  let db := getDb dbs channel in
  let N := count_for_key db k in
  let shown := Z.of_nat (Nat.min N 20) in
  whatis_rows db key = map f_fact (firstn 20 (facts_of db k)) /\
  List.length (whatis_rows db key) = Nat.min N 20 /\
  ascending (map f_id (firstn 20 (facts_of db k))) /\
  whatis_totalResults db key = shown /\
  fst (whatis env msg args dbs) =
    (let '(shrunk, l) :=
       shrinkList env (whatis_factoids 0 (whatis_rows db key)) ", or " 400 in
     if negb (shrunk =? 0) then
       Reply (key ++ " could be " ++ Py.join ", or " l ++ ". (" ++
              Py.str (shown - 1) ++ " results shown out of " ++
              Py.str shown ++ ")")
     else Reply (key ++ " could be " ++ Py.join ", or " l ++ ".")).
Proof.
  intros Hc Hk H L Hpos db N shown.
  change (lookup db key = Some k) in L. change (wf db) in H.
  change (0 < N)%nat in Hpos.
  assert (Hrows : whatis_rows db key = map f_fact (firstn 20 (facts_of db k))).
  { unfold whatis_rows. now rewrite (key_factoids_lookup db key H), L. }
  assert (Hlen : List.length (whatis_rows db key) = Nat.min N 20).
  { rewrite Hrows, length_map, length_firstn.
    unfold N. rewrite count_for_key_facts_of. apply Nat.min_comm. }
  assert (Htot : whatis_totalResults db key = shown).
  { unfold whatis_totalResults, Py.len.
    now rewrite whatis_factoids_length, Hlen. }
  split; [exact Hrows|]. split; [exact Hlen|]. split; [|split; [exact Htot|]].
  - rewrite <- firstn_map. apply ascending_firstn.
    now apply facts_of_ascending.
  - unfold whatis. rewrite (on_channel_inr _ _ _ _ _ _ _ Hc). simpl fst.
    fold db. unfold whatis_body. rewrite Hk.
    assert (E : (Py.len (whatis_rows db key) =? 0) = false).
    { apply Z.eqb_neq. unfold Py.len. rewrite Hlen. lia. }
    rewrite E, Htot. unfold Py.len. rewrite Hlen. fold shown.
    destruct (shrinkList env _ _ _) as [shrunk l].
    now destruct (negb (shrunk =? 0)).
Qed.

Lemma whatis_first_twenty_witness :
  whatis_totalResults (getDb Demo.many "#chan") "topic" =
    Z.of_nat (Nat.min (count_for_key (getDb Demo.many "#chan")
                         (mkKey 1 "topic" 0)) 20) /\
  List.length (whatis_rows (getDb Demo.many "#chan") "topic") = 20%nat.
Proof.
  destruct (whatis_first_twenty (Demo.env true 7) Demo.alice ["topic"]
              Demo.many "#chan" ["topic"] "topic" (mkKey 1 "topic" 0)
              eq_refl eq_refl (reachable_wf _ "#chan") eq_refl)
    as (_ & H2 & _ & H4 & _).
  - vm_compute. lia.
  - split; [exact H4|]. rewrite H2. reflexivity.
Defined.

(** C2 as stated fails: the key "topic" has 25 factoids, [whatis] fetches
    20 of them, and the total it computes is 20, not 25; its reply carries
    no remark that anything was left out. *)
Lemma whatis_total_is_rows_fetched :
  lookup (getDb Demo.many "#chan") "topic" = Some (mkKey 1 "topic" 0) /\
  count_for_key (getDb Demo.many "#chan") (mkKey 1 "topic" 0) = 25%nat /\
  List.length (whatis_rows (getDb Demo.many "#chan") "topic") = 20%nat /\
  whatis_totalResults (getDb Demo.many "#chan") "topic" = 20 /\
  whatis_totalResults (getDb Demo.many "#chan") "topic" <> 25 /\
  fst (whatis (Demo.env true 7) Demo.alice ["topic"] Demo.many) =
    Reply ("topic could be " ++
           Py.join ", or "
             (whatis_factoids 0
                (whatis_rows (getDb Demo.many "#chan") "topic")) ++ ".").
Proof.
  repeat split; try reflexivity. vm_compute. discriminate.
Qed.

(** ** [unlearn] without a number *)

(** Lines 197-200 never leave [number] at None: the [else] branch is
    dead. *)
Lemma unlearn_number_never_None (args rest : list string) :
  unlearn_number args <> inr (None, rest).
Proof.
  unfold unlearn_number. destruct (rev args) as [|word r]; [discriminate|].
  simpl. now destruct (Py.int word).
Qed.

(** A last word that is not a number makes [unlearn] raise ValueError
    before it looks at the database. *)
Lemma unlearn_word_not_number env msg args dbs channel
    (words : list string) (word : string) :
  getChannel env msg args = inr (channel, (words ++ [word])%list) ->
  Py.int word = None ->
  fst (unlearn env msg args dbs) = Raised ValueError /\
  forall c, getDb (snd (unlearn env msg args dbs)) c = getDb dbs c.
Proof.
  intros Hc Hn. unfold unlearn.
  rewrite (on_channel_inr _ _ _ _ _ _ _ Hc). simpl fst. simpl snd.
  unfold unlearn_body. rewrite unlearn_number_snoc, Hn. simpl.
  split; [reflexivity|]. intros c. apply getDb_setDb_id.
Qed.

(** What lines 201-234 would do if they were reached with [number] at
    None and the key had one factoid: the factoid and the key row go. *)
Lemma unlearn_rest_single env msg channel number words key k f db :
  getArgs env words = inr key ->
  checkCapability env (prefix msg)
    (makeChannelCapability env channel "factoids") = true ->
  wf db -> lookup db key = Some k -> facts_of db k = [f] ->
  let r := unlearn_rest env msg channel number words db in
  fst r = Reply (replySuccess env) /\
  factoids (snd r) = filter (fun g => negb (f_id g =? f_id f)) (factoids db) /\
  lookup (snd r) key = None /\
  (forall key', key' <> key -> lookup (snd r) key' = lookup db key').
Proof.
  intros Hk Hc H L F r. unfold r.
  rewrite (unlearn_rest_lookup env msg channel number words key k db
             Hk Hc H L), F.
  simpl. repeat split; unfold lookup; simpl.
  - induction (keys db) as [|a ks IH]; simpl; [reflexivity|].
    destruct (k_key a =? key)%string eqn:E; simpl; rewrite ?E; exact IH.
  - intros key' Hne. induction (keys db) as [|a ks IH]; simpl; [reflexivity|].
    destruct (k_key a =? key)%string eqn:E; simpl.
    + apply String.eqb_eq in E.
      destruct (k_key a =? key')%string eqn:E'; [|exact IH].
      apply String.eqb_eq in E'. congruence.
    + destruct (k_key a =? key')%string; [reflexivity|exact IH].
Qed.

(** ... and if the key had several: the count is reported and nothing
    goes. *)
Lemma unlearn_rest_None_many env msg channel words key k db :
  getArgs env words = inr key ->
  checkCapability env (prefix msg)
    (makeChannelCapability env channel "factoids") = true ->
  wf db -> lookup db key = Some k -> (1 < count_for_key db k)%nat ->
  unlearn_rest env msg channel None words db =
  (Error (Py.str (Z.of_nat (count_for_key db k)) ++
          " factoids have that key.  " ++
          "Please specify which one to remove."), db).
Proof.
  intros Hk Hc H L Hn.
  rewrite (unlearn_rest_lookup env msg channel None words key k db Hk Hc H L).
  rewrite count_for_key_facts_of in *.
  destruct (facts_of db k) as [|f [|g r]]; simpl in Hn; try lia.
  reflexivity.
Qed.

(** After the key row is gone, [learn] on the same text inserts a new row
    with [locked] at 0. *)
Lemma resolve_key_absent (db : Db) (key : string) :
  lookup db key = None ->
  resolve_key db key =
  (Some (Sql.next_rowid (map k_id (keys db)), 0),
   mkDb (keys db ++ [mkKey (Sql.next_rowid (map k_id (keys db))) key 0])
        (factoids db)).
Proof.
  intros L. apply lookup_None in L. unfold resolve_key, Sql.select_key.
  rewrite L. simpl.
  assert (E : existsb (fun k => (k_key k =? key)%string) (keys db) = false).
  { destruct (existsb _ (keys db)) eqn:E; [|reflexivity].
    apply existsb_exists in E. destruct E as (k & Hk & E).
    assert (Hin : In k (filter (fun k => (k_key k =? key)%string) (keys db)))
      by (apply filter_In; tauto).
    rewrite L in Hin. destruct Hin. }
  unfold Sql.insert_key. rewrite E. simpl.
  rewrite filter_app, L. simpl. now rewrite String.eqb_refl.
Qed.

(** C3 at a failing input.  The key "color" has exactly one factoid;
    [unlearn] called with the words of the key and no number raises
    ValueError, deletes nothing, and the key row stays.  Called with a
    number, whatever it is, the same key loses its factoid and its row, a
    lookup then finds nothing, and a new [learn] makes a row with [locked]
    at 0. *)
Theorem unlearn_single_without_number :
  count_for_key (getDb Demo.one_color "#chan") (mkKey 1 "color" 0) = 1%nat /\
  fst (unlearn (Demo.env true 7) Demo.alice ["color"] Demo.one_color) =
    Raised ValueError /\
  getDb (snd (unlearn (Demo.env true 7) Demo.alice ["color"] Demo.one_color))
        "#chan" = getDb Demo.one_color "#chan" /\
  lookup (getDb (snd (unlearn (Demo.env true 7) Demo.alice ["color"]
                        Demo.one_color)) "#chan") "color" =
    Some (mkKey 1 "color" 0) /\
  (let after := snd (unlearn (Demo.env true 7) Demo.alice ["color"; "7"]
                       Demo.one_color) in
   getDb after "#chan" = mkDb [] [] /\
   lookup (getDb after "#chan") "color" = None /\
   lookup (getDb (snd (learn (Demo.env true 8) Demo.alice
                         ["color"; "as"; "green"] after)) "#chan") "color" =
     Some (mkKey 1 "color" 0)).
Proof. repeat split. Qed.

(** C7 at a failing input.  The key "color" has two factoids; [unlearn]
    called with the words of the key and no number raises ValueError
    instead of answering that two factoids have that key.  Nothing is
    deleted. *)
Theorem unlearn_many_without_number :
  count_for_key (getDb Demo.two_colors "#chan") (mkKey 1 "color" 0) = 2%nat /\
  fst (unlearn (Demo.env true 7) Demo.alice ["color"] Demo.two_colors) =
    Raised ValueError /\
  fst (unlearn (Demo.env true 7) Demo.alice ["color"] Demo.two_colors) <>
    Error "2 factoids have that key.  Please specify which one to remove." /\
  getDb (snd (unlearn (Demo.env true 7) Demo.alice ["color"] Demo.two_colors))
        "#chan" = getDb Demo.two_colors "#chan".
Proof. repeat split. discriminate. Qed.

(** ** [unlearn] with a number out of range *)

Lemma getitem_out_of_range {A} (l : list A) (n : Z) :
  Py.len l <= n \/ n < - Py.len l -> Py.getitem l n = None.
Proof.
  intros H. unfold Py.getitem. pose proof (Zle_0_nat (List.length l)) as Hl.
  unfold Py.len in *.
  destruct (0 <=? n) eqn:E.
  - apply Z.leb_le in E. apply nth_error_None. lia.
  - apply Z.leb_gt in E.
    destruct (0 <=? Z.of_nat (List.length l) + n) eqn:E'; [|reflexivity].
    apply Z.leb_le in E'. lia.
Qed.

(** A negative number inside [-N, -1] is not refused: it counts from the
    end of the list. *)
Lemma getitem_negative {A} (l : list A) (n : Z) :
  - Py.len l <= n < 0 ->
  Py.getitem l n = nth_error l (Z.to_nat (Py.len l + n)) /\
  Py.getitem l n <> None.
Proof.
  intros H. unfold Py.getitem.
  assert (E : (0 <=? n) = false) by (apply Z.leb_gt; lia).
  assert (E' : (0 <=? Py.len l + n) = true) by (apply Z.leb_le; lia).
  rewrite E, E'. split; [reflexivity|].
  apply nth_error_Some. unfold Py.len in *. lia.
Qed.

(** With more than one factoid, a number at or above the count, or below
    minus the count, is answered with "Invalid factoid number." and
    nothing is deleted. *)
Lemma unlearn_out_of_range env msg args dbs channel
    (words : list string) (word : string) n key k :
  getChannel env msg args = inr (channel, (words ++ [word])%list) ->
  Py.int word = Some n ->
  getArgs env words = inr key ->
  checkCapability env (prefix msg)
    (makeChannelCapability env channel "factoids") = true ->
  wf (getDb dbs channel) ->
  lookup (getDb dbs channel) key = Some k ->
  (1 < count_for_key (getDb dbs channel) k)%nat ->
  Z.of_nat (count_for_key (getDb dbs channel) k) <= n \/
  n < - Z.of_nat (count_for_key (getDb dbs channel) k) ->
  fst (unlearn env msg args dbs) = Error "Invalid factoid number." /\
  forall c, getDb (snd (unlearn env msg args dbs)) c = getDb dbs c.
Proof.
  intros Hc Hn Hk Hcap H L HN Hr. unfold unlearn.
  rewrite (on_channel_inr _ _ _ _ _ _ _ Hc). simpl fst. simpl snd.
  rewrite (unlearn_body_number env msg channel words word n key k _
             Hn Hk Hcap H L).
  rewrite count_for_key_facts_of in *.
  destruct (facts_of (getDb dbs channel) k) as [|f [|g r]] eqn:F;
    simpl in HN; try lia.
  rewrite getitem_out_of_range by exact Hr. simpl.
  split; [reflexivity|]. intros c. apply getDb_setDb_id.
Qed.

(** C8 at a failing input.  The key "color" has the two factoids "blue"
    and "red"; the number -1 is out of range for two factoids, yet
    [unlearn] answers with the success reply and deletes "red". *)
Theorem unlearn_negative_number_deletes :
  count_for_key (getDb Demo.two_colors "#chan") (mkKey 1 "color" 0) = 2%nat /\
  Py.int "-1" = Some (-1) /\
  fst (unlearn (Demo.env true 7) Demo.alice ["color"; "-1"] Demo.two_colors) =
    Reply (replySuccess (Demo.env true 7)) /\
  map f_fact (factoids (getDb Demo.two_colors "#chan")) = ["blue"; "red"] /\
  map f_fact
    (factoids (getDb (snd (unlearn (Demo.env true 7) Demo.alice
                             ["color"; "-1"] Demo.two_colors)) "#chan")) =
    ["blue"].
Proof. repeat split. Qed.

(** ** Keys without factoids *)

Lemma count_pos_iff (db : Db) (k : KeyRow) :
  (0 < count_for_key db k)%nat <->
  exists g, In g (factoids db) /\ f_key_id g = k_id k.
Proof.
  rewrite count_for_key_facts_of. unfold facts_of. split.
  - destruct (filter _ (factoids db)) as [|g r] eqn:F; simpl; [lia|].
    intros _. exists g.
    assert (Hg : In g (filter (fun f => f_key_id f =? k_id k) (factoids db)))
      by (rewrite F; now left).
    apply filter_In in Hg. destruct Hg as [Hg E].
    apply Z.eqb_eq in E. tauto.
  - intros (g & Hg & E).
    assert (Hg' : In g (filter (fun f => f_key_id f =? k_id k) (factoids db))).
    { apply filter_In. split; [assumption|]. now apply Z.eqb_eq. }
    destruct (filter _ (factoids db)); [destruct Hg'|simpl; lia].
Qed.

Lemma no_empty_keyb_spec (db : Db) :
  no_empty_keyb db = true <-> no_empty_key db.
Proof.
  unfold no_empty_keyb, no_empty_key. rewrite forallb_forall.
  split; intros H k Hk; specialize (H k Hk).
  - now apply Nat.ltb_lt.
  - now apply Nat.ltb_lt.
Qed.

(** Two key rows of a table in ascending id order with the same id are the
    same row. *)
Lemma ascending_same_key_id (ks : list KeyRow) (k k' : KeyRow) :
  ascending (map k_id ks) -> In k ks -> In k' ks -> k_id k' = k_id k -> k' = k.
Proof.
  induction ks as [|a ks IH]; simpl; [intros _ []|].
  intros [Ha Hks] [->|Hk] [->|Hk'] E; auto.
  - specialize (Ha (k_id k') (in_map k_id _ _ Hk')). lia.
  - specialize (Ha (k_id k) (in_map k_id _ _ Hk)). lia.
Qed.

Lemma getitem_In {A} (l : list A) (n : Z) (x : A) :
  Py.getitem l n = Some x -> In x l.
Proof.
  unfold Py.getitem. destruct (0 <=? n); [apply nth_error_In|].
  destruct (0 <=? Py.len l + n); [apply nth_error_In|discriminate].
Qed.

Section Invariant.

Variables (env : Env) (msg : Msg) (channel : string).

(** The caller passes the capability check of this call. *)
Hypothesis capable :
  checkCapability env (prefix msg)
    (makeChannelCapability env channel "factoids") = true.

Lemma learn_body_no_empty_key args db :
  wf db -> no_empty_key db ->
  no_empty_key (snd (learn_body env msg channel args db)).
Proof.
  intros H Hne. unfold learn_body.
  destruct (Py.index "as" args) as [i|]; [|assumption].
  set (key := Py.join " " (firstn i (Py.pop_at i args))).
  destruct (lookup db key) as [k|] eqn:L.
  - rewrite (resolve_key_existing _ _ _ L).
    destruct (k_locked k =? 0); [|assumption].
    rewrite capable. simpl. intros k' Hk'. apply count_pos_iff.
    apply Hne, count_pos_iff in Hk'. destruct Hk' as (g & Hg & E).
    exists g. split; [|assumption]. simpl. apply in_or_app. now left.
  - rewrite (resolve_key_absent _ _ L). simpl. rewrite capable. simpl.
    intros k' Hk'. apply count_pos_iff. simpl in Hk'.
    apply in_app_or in Hk'. destruct Hk' as [Hk'|[<-|[]]].
    + apply Hne, count_pos_iff in Hk'. destruct Hk' as (g & Hg & E).
      exists g. split; [|assumption]. simpl. apply in_or_app. now left.
    + eexists. split; [simpl; apply in_or_app; right; left; reflexivity|].
      reflexivity.
Qed.

Lemma set_locked_body_no_empty_key v args db :
  no_empty_key db ->
  no_empty_key (snd (set_locked_body v env msg channel args db)).
Proof.
  intros Hne. unfold set_locked_body.
  destruct (getArgs env args) as [e|key]; [assumption|].
  destruct (checkCapability env _ _); [|assumption].
  simpl. intros k' Hk'. simpl in Hk'. apply in_map_iff in Hk'.
  destruct Hk' as (k & <- & Hk). apply count_pos_iff.
  apply Hne, count_pos_iff in Hk. destruct Hk as (g & Hg & E).
  exists g. split; [assumption|].
  now destruct (k_key k =? key)%string.
Qed.

Lemma unlearn_rest_no_empty_key number args db :
  wf db -> no_empty_key db ->
  no_empty_key (snd (unlearn_rest env msg channel number args db)).
Proof.
  intros H Hne.
  destruct (getArgs env args) as [e|key] eqn:Hk;
    [unfold unlearn_rest; now rewrite Hk|].
  destruct (lookup (db) key) as [k|] eqn:L.
  2:{ unfold unlearn_rest. rewrite Hk, capable.
      rewrite from_keys_factoids_lookup by apply H. now rewrite L. }
  rewrite (unlearn_rest_lookup env msg channel number args key k db
             Hk capable H L).
  destruct (lookup_In _ _ _ L) as [Hkin Hkey].
  destruct (facts_of db k) as [|f [|g r]] eqn:F; [assumption| |].
  - (* the last factoid of the key: the key row goes too *)
    simpl. intros k' Hk'. simpl in Hk'. apply filter_In in Hk'.
    destruct Hk' as [Hk' Ek']. apply count_pos_iff. simpl.
    destruct (proj1 (count_pos_iff db k') (Hne k' Hk')) as (g & Hg & E).
    exists g. split; [|assumption]. apply filter_In. split; [assumption|].
    apply negb_true_iff, Z.eqb_neq. intros Eid.
    assert (Hf : In f (facts_of db k)) by (rewrite F; now left).
    apply filter_In in Hf. destruct Hf as [Hf Ef]. apply Z.eqb_eq in Ef.
    rewrite (ascending_same_id _ f g (wf_factoids _ H) Hf Hg Eid) in E.
    assert (k' = k).
    { apply (ascending_same_key_id (keys db)); try assumption;
        [apply H|congruence]. }
    subst k'. rewrite Hkey, String.eqb_refl in Ek'. discriminate.
  - (* several factoids: one goes, another one of the key stays *)
    destruct number as [n|]; [|assumption]. cbv zeta.
    destruct (Py.getitem (f :: g :: r) n) as [f'|] eqn:G; [|assumption].
    simpl. intros k' Hk'. simpl in Hk'. apply count_pos_iff. simpl.
    assert (Hasc : ascending (map f_id (facts_of db k)))
      by now apply facts_of_ascending.
    rewrite F in Hasc. simpl in Hasc. destruct Hasc as [Hfg _].
    specialize (Hfg (f_id g) (or_introl eq_refl)).
    assert (Hf : In f (facts_of db k)) by (rewrite F; now left).
    assert (Hg : In g (facts_of db k)) by (rewrite F; right; now left).
    assert (Hf' : In f' (facts_of db k))
      by (rewrite F; now apply (getitem_In _ n)).
    apply filter_In in Hf, Hg, Hf'.
    destruct Hf as [Hf Ef], Hg as [Hg Eg], Hf' as [Hf' Ef'].
    apply Z.eqb_eq in Ef, Eg, Ef'.
    destruct (proj1 (count_pos_iff db k') (Hne k' Hk')) as (h & Hh & E).
    destruct (Z.eq_dec (f_id h) (f_id f')) as [Eid|Nid].
    + rewrite (ascending_same_id _ f' h (wf_factoids _ H) Hf' Hh Eid) in E.
      destruct (Z.eq_dec (f_id f) (f_id f')) as [Ef0|Nf0].
      * exists g. split; [|congruence]. apply filter_In.
        split; [assumption|]. apply negb_true_iff, Z.eqb_neq. lia.
      * exists f. split; [|congruence]. apply filter_In.
        split; [assumption|]. now apply negb_true_iff, Z.eqb_neq.
    + exists h. split; [|assumption]. apply filter_In.
      split; [assumption|]. now apply negb_true_iff, Z.eqb_neq.
Qed.

(** With the capability, every command keeps "well formed and no key
    without factoids". *)
Lemma command_body_no_empty_key cmd args db :
  wf db -> no_empty_key db ->
  no_empty_key (snd (command_body cmd env msg channel args db)).
Proof.
  intros H Hne. destruct cmd; simpl.
  - now apply learn_body_no_empty_key.
  - now rewrite whatis_body_unchanged.
  - now apply set_locked_body_no_empty_key.
  - now apply set_locked_body_no_empty_key.
  - unfold unlearn_body.
    destruct (unlearn_number args) as [e|[number args']]; [assumption|].
    now apply unlearn_rest_no_empty_key.
  - now rewrite randomfactoid_body_unchanged.
  - now rewrite factoidinfo_body_unchanged.
Qed.

End Invariant.

(** When every call passes its capability check, no sequence of commands
    leaves a key row without factoids, on any channel. *)
Lemma run_no_empty_key (calls : list Call) (dbs : Dbs) :
  Forall capable_call calls ->
  (forall c, wf (getDb dbs c) /\ no_empty_key (getDb dbs c)) ->
  forall c, wf (getDb (run calls dbs) c) /\
            no_empty_key (getDb (run calls dbs) c).
Proof.
  revert dbs. induction calls as [|call calls IH]; simpl; intros dbs Hcap H;
    [assumption|].
  inversion Hcap as [|? ? Hc Hcs]; subst.
  apply IH; [assumption|]. rewrite dispatch_on_channel.
  intros c. unfold on_channel.
  destruct (getChannel (c_env call) (c_msg call) (c_args call))
    as [e|[channel args']]; [apply H|].
  destruct (H channel) as [Hw Hn].
  pose proof (command_body_wf (c_cmd call) (c_env call) (c_msg call)
                channel args' _ Hw) as Hw'.
  pose proof (command_body_no_empty_key (c_env call) (c_msg call) channel
                (Hc channel) (c_cmd call) args' _ Hw Hn) as Hn'.
  destruct (command_body _ _ _ _ _ _) as [out db']. simpl in *.
  unfold getDb, setDb. destruct (c =? channel)%string; [tauto|apply H].
Qed.

(** C1 at a failing input.  On an empty bot a caller without the capability
    sends [learn foo as bar]: the command answers that the capability is
    missing, writes no factoid, and leaves the key row it inserted for
    "foo", a key with no factoid. *)
Theorem learn_without_capability_keeps_key :
  let r := learn (Demo.env false 7) Demo.alice ["foo"; "as"; "bar"] noDbs in
  fst r = Error (replyNoCapability (Demo.env false 7) "#chan.factoids") /\
  getDb (snd r) "#chan" = mkDb [mkKey 1 "foo" 0] [] /\
  count_for_key (getDb (snd r) "#chan") (mkKey 1 "foo" 0) = 0%nat /\
  ~ no_empty_key
      (getDb (run [Demo.call false Learn ["foo"; "as"; "bar"]] noDbs) "#chan").
Proof.
  repeat split. intros H. apply no_empty_keyb_spec in H. discriminate H.
Qed.

(** One caller alone: its three statements are [resolve_key]. *)
Lemma resolve_key_as_steps (db : Db) (key : string) :
  run_sched key [0; 0; 0]%nat ([AtSelect], db) =
  ([Fetched (fst (resolve_key db key))], snd (resolve_key db key)).
Proof.
  unfold resolve_key. cbn [run_sched]. unfold sched_step at 3. simpl.
  destruct (Sql.select_key db key) as [|row r]; reflexivity.
Qed.

Lemma set_nth_length {A} (i : nat) (x : A) (l : list A) :
  List.length (set_nth i x l) = List.length l.
Proof.
  revert i. induction l as [|a l IH]; intros [|i]; simpl; auto.
Qed.

Lemma nth_error_set_nth_same {A} (i : nat) (x y : A) (l : list A) :
  nth_error l i = Some y -> nth_error (set_nth i x l) i = Some x.
Proof.
  revert i. induction l as [|a l IH]; intros [|i]; simpl;
    try discriminate; auto.
Qed.

Lemma nth_error_set_nth_other {A} (i j : nat) (x : A) (l : list A) :
  i <> j -> nth_error (set_nth i x l) j = nth_error l j.
Proof.
  revert i j. induction l as [|a l IH]; intros [|i] [|j] H; simpl;
    try reflexivity; [contradiction|].
  apply IH. congruence.
Qed.

Lemma Forall_set_nth {A} (P : A -> Prop) (i : nat) (x : A) (l : list A) :
  Forall P l -> P x -> Forall P (set_nth i x l).
Proof.
  revert i. induction l as [|a l IH]; intros [|i] Hl Hx; simpl;
    inversion Hl; subst; constructor; auto.
Qed.

Lemma rank_step (key : string) (pc : Pc) (db : Db) :
  (Nat.min 3 (rank pc + 1) <= rank (fst (resolve_step key pc db)))%nat.
Proof.
  destruct pc; simpl; try lia.
  destruct (Sql.select_key db key); simpl; lia.
Qed.

(** A caller that is scheduled often enough gets through. *)
Lemma run_sched_progress (key : string) (sched : list nat) :
  forall s i pc, nth_error (fst s) i = Some pc ->
  exists pc', nth_error (fst (run_sched key sched s)) i = Some pc' /\
              (Nat.min 3 (rank pc + count_occ Nat.eq_dec sched i)
               <= rank pc')%nat.
Proof.
  induction sched as [|j sched IH]; intros s i pc Hpc.
  - exists pc. cbn [run_sched count_occ]. split; [assumption|lia].
  - cbn [run_sched count_occ]. destruct (Nat.eq_dec j i) as [->|Hji].
    + destruct (IH (sched_step key i s) i
                  (fst (resolve_step key pc (snd s)))) as (pc' & H1 & H2).
      { unfold sched_step. rewrite Hpc.
        destruct (resolve_step key pc (snd s)) as [pc1 db1]. simpl.
        now apply (nth_error_set_nth_same _ _ pc). }
      exists pc'. split; [assumption|].
      pose proof (rank_step key pc (snd s)). lia.
    + destruct (IH (sched_step key j s) i pc) as (pc' & H1 & H2).
      { unfold sched_step. destruct (nth_error (fst s) j); [|assumption].
        destruct (resolve_step key p (snd s)) as [pc1 db1]. simpl.
        now rewrite nth_error_set_nth_other. }
      exists pc'. tauto.
Qed.

Lemma run_sched_length (key : string) (sched : list nat) :
  forall s, List.length (fst (run_sched key sched s)) = List.length (fst s).
Proof.
  induction sched as [|j sched IH]; intros s; [reflexivity|].
  cbn [run_sched]. rewrite IH. unfold sched_step.
  destruct (nth_error (fst s) j); [|reflexivity].
  destruct (resolve_step key p (snd s)). simpl. apply set_nth_length.
Qed.

Section Race.

Variables (db : Db) (key : string).

(** The text has no key row yet. *)
Hypothesis unseen : lookup db key = None.

Local Abbreviation id := (new_key_id db).
Local Abbreviation db1 := (with_new_key db key).
Local Abbreviation at_ok := (at_ok (new_key_id db)).
Local Abbreviation race_inv := (race_inv db key).

Lemma select_unseen : Sql.select_key db key = [].
Proof. unfold Sql.select_key. now rewrite (lookup_None _ _ unseen). Qed.

Lemma insert_unseen : Sql.insert_key db key = db1.
Proof.
  pose proof (resolve_key_absent db key unseen) as H.
  unfold resolve_key in H. rewrite select_unseen in H.
  now injection H.
Qed.

Lemma select_inserted : Sql.select_key db1 key = [(id, 0)].
Proof.
  unfold Sql.select_key, db1. simpl.
  rewrite filter_app, (lookup_None _ _ unseen). simpl.
  now rewrite String.eqb_refl.
Qed.

Lemma insert_inserted : Sql.insert_key db1 key = db1.
Proof.
  unfold Sql.insert_key.
  assert (E : existsb (fun k => (k_key k =? key)%string) (keys db1) = true).
  { apply existsb_exists. exists (mkKey id key 0). split.
    - unfold db1. simpl. apply in_or_app. right. now left.
    - apply String.eqb_refl. }
  now rewrite E.
Qed.

Lemma at_ok_inserted (b : bool) (pc : Pc) : at_ok b pc -> at_ok true pc.
Proof. destruct pc; simpl; tauto. Qed.

Lemma sched_step_inv (i : nat) (s : list Pc * Db) :
  race_inv s -> race_inv (sched_step key i s).
Proof.
  intros (b & Hd & Hp). unfold sched_step.
  destruct (nth_error (fst s) i) as [pc|] eqn:E; [|now exists b].
  assert (Hpc : at_ok b pc).
  { apply nth_error_In in E. revert E. now apply Forall_forall. }
  rewrite Hd. destruct pc; simpl.
  - destruct b.
    + rewrite select_inserted. exists true. simpl. split; [reflexivity|].
      apply Forall_set_nth; simpl; auto.
    + rewrite select_unseen. exists false. simpl. split; [reflexivity|].
      apply Forall_set_nth; simpl; auto.
  - exists true. simpl. split.
    + destruct b; [apply insert_inserted|apply insert_unseen].
    + apply Forall_set_nth; simpl; auto.
      revert Hp. apply Forall_impl. apply at_ok_inserted.
  - simpl in Hpc. subst b. rewrite select_inserted. exists true. simpl.
    split; [reflexivity|]. apply Forall_set_nth; simpl; auto.
  - exists b. simpl. split; [reflexivity|]. now apply Forall_set_nth.
Qed.

Lemma run_sched_inv (sched : list nat) (s : list Pc * Db) :
  race_inv s -> race_inv (run_sched key sched s).
Proof.
  revert s. induction sched as [|i sched IH]; intros s H; [assumption|].
  cbn [run_sched]. now apply IH, sched_step_inv.
Qed.

Lemma all_fetched (n : nat) (pcs : list Pc) :
  List.length pcs = n ->
  (forall i, (i < n)%nat -> nth_error pcs i = Some (Fetched (Some (id, 0)))) ->
  pcs = repeat (Fetched (Some (id, 0))) n.
Proof.
  revert n. induction pcs as [|pc pcs IH]; intros n Hl H; subst n;
    [reflexivity|].
  simpl. f_equal.
  - specialize (H O). simpl in H. assert (Some pc = Some (Fetched (Some (id, 0))))
      by (apply H; lia). congruence.
  - apply IH; [reflexivity|]. intros i Hi. apply (H (S i)). simpl. lia.
Qed.

(** Any complete schedule of [n] callers on an unseen text ends with one
    new key row and every caller holding its id. *)
Lemma race_outcome (n : nat) (sched : list nat) :
  (0 < n)%nat -> complete n sched = true ->
  run_sched key sched (repeat AtSelect n, db) =
  (repeat (Fetched (Some (id, 0))) n, db1).
Proof.
  intros Hn Hc.
  set (s0 := (repeat AtSelect n, db)).
  assert (Hinv : race_inv (run_sched key sched s0)).
  { apply run_sched_inv. exists false. simpl. split; [reflexivity|].
    apply Forall_forall. intros pc Hpc. apply repeat_spec in Hpc.
    now subst pc. }
  destruct Hinv as (b & Hd & Hp).
  assert (Hlen : List.length (fst (run_sched key sched s0)) = n).
  { rewrite run_sched_length. unfold s0. simpl. apply repeat_length. }
  assert (Hdone : forall i, (i < n)%nat ->
            nth_error (fst (run_sched key sched s0)) i =
            Some (Fetched (Some (id, 0))) /\ b = true).
  { intros i Hi.
    destruct (run_sched_progress key sched s0 i AtSelect)
      as (pc' & H1 & H2).
    { unfold s0. simpl. rewrite nth_error_repeat; [reflexivity|assumption]. }
    unfold complete in Hc. rewrite forallb_forall in Hc.
    specialize (Hc i). rewrite in_seq in Hc.
    assert (Hc' : Nat.leb 3 (count_occ Nat.eq_dec sched i) = true)
      by (apply Hc; lia).
    apply Nat.leb_le in Hc'. cbn [rank] in H2.
    assert (Hok : at_ok b pc').
    { apply nth_error_In in H1. revert H1. now apply Forall_forall. }
    destruct pc'; cbn [rank] in H2; try lia.
    simpl in Hok. destruct Hok as [-> ->]. now split. }
  destruct (run_sched key sched s0) as [pcs d]. simpl in *.
  f_equal.
  - apply all_fetched; [assumption|]. intros i Hi. now apply Hdone.
  - destruct (Hdone O Hn) as [_ ->]. assumption.
Qed.

End Race.

(** C9.  [n] callers enter the key resolution of [learn] with the same
    text, which has no key row yet.  Whatever the order in which their
    statements run, once every caller has run its three statements the
    [keys] table has gained exactly one row, the only row with that text,
    and every caller has fetched the id of that row: the INSERT of every
    caller but the first is ignored by the UNIQUE constraint, and every
    second SELECT reads the one row. *)
Theorem concurrent_resolve_one_key (db : Db) (key : string) (n : nat)
    (sched : list nat) :
  lookup db key = None ->
  (0 < n)%nat ->
  complete n sched = true ->
  let id := Sql.next_rowid (map k_id (keys db)) in
  let final := run_sched key sched (repeat AtSelect n, db) in
  fst final = repeat (Fetched (Some (id, 0))) n /\
  keys (snd final) = (keys db ++ [mkKey id key 0])%list /\
  filter (fun k => (k_key k =? key)%string) (keys (snd final)) =
    [mkKey id key 0] /\
  factoids (snd final) = factoids db /\
  (forall i pc, nth_error (fst final) i = Some pc ->
                pc = Fetched (Some (id, 0))).
Proof.
  intros L Hn Hc id final. unfold final.
  rewrite (race_outcome db key L n sched Hn Hc). simpl. fold id.
  repeat split.
  - rewrite filter_app, (lookup_None _ _ L). simpl.
    now rewrite String.eqb_refl.
  - intros i pc Hpc. apply nth_error_In, repeat_spec in Hpc. exact Hpc.
Qed.

Lemma concurrent_resolve_one_key_witness :
  fst (run_sched "foo" [0; 1; 0; 1; 0; 1]%nat
         ([AtSelect; AtSelect], makeDb)) =
    [Fetched (Some (1, 0)); Fetched (Some (1, 0))] /\
  keys (snd (run_sched "foo" [0; 1; 0; 1; 0; 1]%nat
               ([AtSelect; AtSelect], makeDb))) = [mkKey 1 "foo" 0].
Proof.
  destruct (concurrent_resolve_one_key makeDb "foo" 2 [0; 1; 0; 1; 0; 1]%nat)
    as (H1 & H2 & _).
  - reflexivity.
  - lia.
  - reflexivity.
  - split; [exact H1|exact H2].
Defined.


(** * Further properties of the plugin *)

(** ** No factoid without its key *)

Lemma select_key_In (db : Db) (key : string) (row : Z * Z) :
  In row (Sql.select_key db key) -> exists k, In k (keys db) /\ k_id k = fst row.
Proof.
  unfold Sql.select_key. intros H. apply in_map_iff in H.
  destruct H as (k & <- & Hk). apply filter_In in Hk. exists k. tauto.
Qed.

Lemma insert_key_keeps_keys (db : Db) (key : string) (k : KeyRow) :
  In k (keys db) -> In k (keys (Sql.insert_key db key)).
Proof.
  unfold Sql.insert_key. destruct (existsb _ (keys db)); [trivial|].
  simpl. intros H. apply in_or_app. now left.
Qed.

Lemma insert_key_factoids (db : Db) (key : string) :
  factoids (Sql.insert_key db key) = factoids db.
Proof. unfold Sql.insert_key. now destruct (existsb _ (keys db)). Qed.

(** The row [resolve_key] fetches is the row of a key of the database it
    leaves. *)
Lemma resolve_key_row (db : Db) (key : string) (id locked : Z) :
  fst (resolve_key db key) = Some (id, locked) ->
  exists k, In k (keys (snd (resolve_key db key))) /\ k_id k = id.
Proof.
  unfold resolve_key. destruct (Sql.select_key db key) as [|row r] eqn:S.
  - simpl. intros H.
    destruct (Sql.select_key (Sql.insert_key db key) key) as [|row r] eqn:S';
      [discriminate|].
    simpl in H. injection H as ->.
    destruct (select_key_In (Sql.insert_key db key) key (id, locked))
      as (k & Hk & E); [rewrite S'; now left|].
    now exists k.
  - simpl. intros H. injection H as ->.
    destruct (select_key_In db key (id, locked)) as (k & Hk & E);
      [rewrite S; now left|].
    now exists k.
Qed.

Lemma resolve_key_no_orphan (db : Db) (key : string) :
  no_orphan db -> no_orphan (snd (resolve_key db key)).
Proof.
  intros H. unfold resolve_key.
  destruct (Sql.select_key db key); simpl; [|assumption].
  intros f Hf. rewrite insert_key_factoids in Hf.
  destruct (H f Hf) as (k & Hk & E). exists k.
  split; [now apply insert_key_keeps_keys|assumption].
Qed.

Lemma trigger_spec (old : list KeyRow) (fs : list FactoidRow) (f : FactoidRow) :
  In f (fold_left
          (fun fs o => filter (fun f => negb (f_key_id f =? k_id o)) fs)
          old fs) <->
  In f fs /\ forall o, In o old -> f_key_id f <> k_id o.
Proof.
  revert fs. induction old as [|o old IH]; simpl; intros fs.
  - split; [intros H; split; [assumption|intros o []]|tauto].
  - rewrite IH, filter_In, negb_true_iff, Z.eqb_neq. split.
    + intros [[Hf Ho] Hold]. split; [assumption|].
      intros o' [<-|Ho']; auto.
    + intros [Hf H]. repeat split; auto.
Qed.

Lemma delete_keys_key_no_orphan (db : Db) (key : string) :
  no_orphan db -> no_orphan (Sql.delete_keys_key db key).
Proof.
  intros H f Hf. unfold Sql.delete_keys_key in *. simpl in *.
  apply trigger_spec in Hf. destruct Hf as [Hf Hold].
  destruct (H f Hf) as (k & Hk & E). exists k. split; [|assumption].
  apply filter_In. split; [assumption|].
  destruct (k_key k =? key)%string eqn:Ek; [|reflexivity].
  exfalso. apply (Hold k); [|congruence]. apply filter_In. tauto.
Qed.

Lemma filter_factoids_no_orphan (db : Db) (p : FactoidRow -> bool) :
  no_orphan db -> no_orphan (mkDb (keys db) (filter p (factoids db))).
Proof.
  intros H f Hf. simpl in *. apply filter_In in Hf. apply H. tauto.
Qed.

Lemma command_body_no_orphan cmd env msg channel args db :
  no_orphan db -> no_orphan (snd (command_body cmd env msg channel args db)).
Proof.
  intros H. destruct cmd; simpl.
  - unfold learn_body.
    destruct (Py.index "as" args) as [i|]; [|assumption].
    pose proof (resolve_key_no_orphan db
      (Py.join " " (firstn i (Py.pop_at i args))) H) as Hr.
    pose proof (resolve_key_row db
      (Py.join " " (firstn i (Py.pop_at i args)))) as Hrow.
    destruct (resolve_key db _) as [[[id locked]|] db']; simpl in *;
      [|assumption].
    destruct (locked =? 0); [|assumption].
    destruct (checkCapability env _ _); simpl; [|assumption].
    intros f Hf. simpl in Hf. apply in_app_or in Hf.
    destruct Hf as [Hf|[<-|[]]]; [now apply Hr|].
    simpl. now apply (Hrow id locked).
  - now rewrite whatis_body_unchanged.
  - unfold set_locked_body. destruct (getArgs env args) as [e|key]; [assumption|].
    destruct (checkCapability env _ _); [|assumption].
    simpl. intros f Hf. destruct (H f Hf) as (k & Hk & E). simpl.
    eexists. split; [apply in_map; exact Hk|].
    now destruct (k_key k =? key)%string.
  - unfold set_locked_body. destruct (getArgs env args) as [e|key]; [assumption|].
    destruct (checkCapability env _ _); [|assumption].
    simpl. intros f Hf. destruct (H f Hf) as (k & Hk & E). simpl.
    eexists. split; [apply in_map; exact Hk|].
    now destruct (k_key k =? key)%string.
  - unfold unlearn_body, unlearn_rest.
    destruct (unlearn_number args) as [e|[number args']]; [assumption|].
    destruct (getArgs env args') as [e|key]; [assumption|].
    destruct (checkCapability env _ _); [|assumption].
    destruct (Py.len _ =? 0); [assumption|].
    destruct (Py.len _ =? 1).
    + destruct (map _ _) as [|[id x] r]; simpl; [assumption|].
      apply delete_keys_key_no_orphan.
      now apply (filter_factoids_no_orphan db).
    + destruct number as [n|]; [|assumption].
      destruct (Py.getitem _ n) as [[x id]|]; simpl; [|assumption].
      now apply (filter_factoids_no_orphan db).
  - now rewrite randomfactoid_body_unchanged.
  - now rewrite factoidinfo_body_unchanged.
Qed.

Lemma run_no_orphan (calls : list Call) (dbs : Dbs) :
  (forall c, no_orphan (getDb dbs c)) ->
  forall c, no_orphan (getDb (run calls dbs) c).
Proof.
  revert dbs. induction calls as [|call calls IH]; simpl; intros dbs H;
    [assumption|].
  apply IH. rewrite dispatch_on_channel.
  apply on_channel_keeps; [|assumption].
  intros. now apply command_body_no_orphan.
Qed.

(** X1.  Whatever commands the bot has answered, by whatever callers, on
    every channel both tables are in strictly ascending id order (so ids
    are unique), no key text occurs twice, and every factoid row has the
    id of an existing key row in its [key_id]. *)
Theorem reachable_well_formed (calls : list Call) (c : string) :
  wf (getDb (run calls noDbs) c) /\ no_orphan (getDb (run calls noDbs) c).
Proof.
  split.
  - apply run_wf. intros c'. apply makeDb_wf.
  - apply run_no_orphan. intros c' f [].
Qed.

(** X2.  When every call passes its capability check, no sequence of
    commands leaves a key row without factoids, on any channel. *)
Theorem capable_runs_no_empty_key (calls : list Call) (c : string) :
  Forall capable_call calls -> no_empty_key (getDb (run calls noDbs) c).
Proof.
  intros H. apply (run_no_empty_key calls noDbs H).
  intros c'. split; [apply makeDb_wf|intros k []].
Qed.

Lemma capable_runs_no_empty_key_witness :
  no_empty_key (getDb Demo.locked_colors "#chan").
Proof.
  apply (capable_runs_no_empty_key
           [Demo.call true Learn ["color"; "as"; "blue"];
            Demo.call true Learn ["color"; "as"; "red"];
            Demo.call true Lock ["color"]] "#chan").
  repeat constructor.
Defined.

(** X3.  [learn] never ends with TypeError: the row it fetches at line 101
    is always there, because the INSERT of line 98 either adds the row or
    finds its text already present. *)
Theorem learn_never_TypeError env msg channel args db :
  fst (learn_body env msg channel args db) <> Raised TypeError.
Proof.
  unfold learn_body. destruct (Py.index "as" args) as [i|]; [|discriminate].
  set (key := Py.join " " (firstn i (Py.pop_at i args))).
  destruct (lookup db key) as [k|] eqn:L.
  - rewrite (resolve_key_existing _ _ _ L).
    destruct (k_locked k =? 0); [|discriminate].
    now destruct (checkCapability env _ _).
  - rewrite (resolve_key_absent _ _ L). simpl.
    now destruct (checkCapability env _ _).
Qed.

(** ** The commands that only read *)

Lemma on_channel_unchanged env msg args body dbs :
  (forall channel args' db, snd (body channel args' db) = db) ->
  forall c, getDb (snd (on_channel env msg args body dbs)) c = getDb dbs c.
Proof.
  intros Hb c. unfold on_channel.
  destruct (getChannel env msg args) as [e|[channel args']]; [reflexivity|].
  specialize (Hb channel args' (getDb dbs channel)).
  destruct (body channel args' (getDb dbs channel)) as [out db'].
  simpl in *. subst db'. apply getDb_setDb_id.
Qed.

(** X4.  [whatis], [randomfactoid] and [factoidinfo] never change a
    database, whatever their arguments and whoever calls. *)
Theorem queries_change_nothing env msg args dbs c :
  getDb (snd (whatis env msg args dbs)) c = getDb dbs c /\
  getDb (snd (randomfactoid env msg args dbs)) c = getDb dbs c /\
  getDb (snd (factoidinfo env msg args dbs)) c = getDb dbs c.
Proof.
  repeat split; apply on_channel_unchanged; intros.
  - apply whatis_body_unchanged.
  - apply randomfactoid_body_unchanged.
  - apply factoidinfo_body_unchanged.
Qed.

Lemma joins_absent (db : Db) (key : string) (f : FactoidRow) :
  lookup db key = None ->
  filter (fun k => Sql.joins key k f) (keys db) = [].
Proof.
  intros L. apply lookup_None in L. revert L.
  induction (keys db) as [|a ks IH]; simpl; [reflexivity|].
  unfold Sql.joins at 1.
  destruct (k_key a =? key)%string; [discriminate|]. exact IH.
Qed.

Lemma from_factoids_keys_absent (db : Db) (key : string) :
  lookup db key = None -> Sql.from_factoids_keys db key = [].
Proof.
  intros L. unfold Sql.from_factoids_keys.
  induction (factoids db) as [|f fs IH]; simpl; [reflexivity|].
  now rewrite (joins_absent db key f L), IH.
Qed.

Lemma filter_joins_other (key : string) (a : KeyRow) (fs : list FactoidRow) :
  (k_key a =? key)%string = false ->
  filter (fun f => Sql.joins key a f) fs = [].
Proof.
  intros E. induction fs as [|f fs IH]; [reflexivity|].
  simpl. unfold Sql.joins at 1. rewrite E. simpl. exact IH.
Qed.

Lemma from_keys_factoids_absent (db : Db) (key : string) :
  lookup db key = None -> Sql.from_keys_factoids db key = [].
Proof.
  intros L. apply lookup_None in L. unfold Sql.from_keys_factoids.
  revert L. induction (keys db) as [|a ks IH]; simpl; [reflexivity|].
  destruct (k_key a =? key)%string eqn:E; [discriminate|].
  intros L. rewrite (IH L), app_nil_r.
  now rewrite (filter_joins_other key a _ E).
Qed.

(** X5.  For a text that no key row has: [whatis] and [factoidinfo] answer
    "No factoid matches that key.", [unlearn] by a caller with the
    capability, given any number, answers "There is no such factoid.", and
    none of them changes the database. *)
Theorem missing_key_answers env msg channel (words : list string)
    (word : string) n key db :
  getArgs env words = inr key ->
  Py.int word = Some n ->
  checkCapability env (prefix msg)
    (makeChannelCapability env channel "factoids") = true ->
  lookup db key = None ->
  whatis_body env msg channel words db =
    (Error "No factoid matches that key.", db) /\
  factoidinfo_body env msg channel words db =
    (Error "No factoid matches that key.", db) /\
  unlearn_body env msg channel (words ++ [word]) db =
    (Error "There is no such factoid.", db).
Proof.
  intros Hk Hn Hc L. repeat split.
  - unfold whatis_body, whatis_rows, key_factoids.
    now rewrite Hk, (from_factoids_keys_absent db key L).
  - unfold factoidinfo_body, Sql.select_key.
    now rewrite Hk, (lookup_None db key L).
  - unfold unlearn_body, unlearn_rest.
    now rewrite unlearn_number_snoc, Hn, Hk, Hc,
      (from_keys_factoids_absent db key L).
Qed.

Lemma missing_key_answers_witness :
  whatis_body (Demo.env true 7) Demo.alice "#chan" ["shape"]
    (getDb Demo.two_colors "#chan") =
    (Error "No factoid matches that key.", getDb Demo.two_colors "#chan") /\
  unlearn_body (Demo.env true 7) Demo.alice "#chan" ["shape"; "0"]
    (getDb Demo.two_colors "#chan") =
    (Error "There is no such factoid.", getDb Demo.two_colors "#chan").
Proof.
  destruct (missing_key_answers (Demo.env true 7) Demo.alice "#chan"
              ["shape"] "0" 0 "shape" (getDb Demo.two_colors "#chan")
              eq_refl eq_refl eq_refl eq_refl) as (H1 & _ & H3).
  split; [exact H1|exact H3].
Defined.

(** X6.  In a well-formed database [whatis] answers "No factoid matches
    that key." exactly when the key has no factoid: when no key row has the
    text, or when the key row is there without factoids. *)
Theorem whatis_not_found_iff env msg channel args key db :
  getArgs env args = inr key ->
  wf db ->
  (fst (whatis_body env msg channel args db) =
     Error "No factoid matches that key." <->
   forall k, lookup db key = Some k -> count_for_key db k = 0%nat).
Proof.
  intros Hk H. unfold whatis_body. rewrite Hk.
  unfold whatis_rows. rewrite (key_factoids_lookup db key H).
  destruct (lookup db key) as [k|] eqn:L.
  - destruct (facts_of db k) as [|f r] eqn:F.
    + simpl. split; [|reflexivity].
      intros _ k' E. injection E as <-.
      now rewrite count_for_key_facts_of, F.
    + assert (E : (Py.len (map f_fact (firstn 20 (f :: r))) =? 0) = false)
        by (apply Z.eqb_neq; unfold Py.len; simpl List.length; lia).
      rewrite E. destruct (shrinkList env _ _ _) as [shrunk l].
      split.
      * destruct (negb (shrunk =? 0)); discriminate.
      * intros Hz. specialize (Hz k eq_refl).
        rewrite count_for_key_facts_of, F in Hz. discriminate.
  - simpl. split; [discriminate|reflexivity].
Qed.

Lemma whatis_not_found_iff_witness :
  fst (whatis_body (Demo.env true 7) Demo.alice "#chan" ["shape"]
         (getDb Demo.two_colors "#chan")) =
  Error "No factoid matches that key.".
Proof.
  apply (whatis_not_found_iff (Demo.env true 7) Demo.alice "#chan" ["shape"]
           "shape" (getDb Demo.two_colors "#chan") eq_refl
           (reachable_wf _ "#chan")).
  intros k E. discriminate E.
Defined.

Lemma factoidinfo_lines_length env (counter : Z) (rows : list FactoidRow) :
  List.length (factoidinfo_lines env counter rows) = List.length rows.
Proof.
  revert counter. induction rows as [|r rows IH]; simpl; intros counter;
    [reflexivity|].
  now rewrite IH.
Qed.

(** X7.  For a text that has a key row, [factoidinfo] says whether the key
    is locked and gives the count of all its factoids, with one line for
    each of them in table order: unlike [whatis] it has no limit of
    twenty. *)
Theorem factoidinfo_counts_all env msg channel args key k db :
  getArgs env args = inr key ->
  wf db ->
  lookup db key = Some k ->
  fst (factoidinfo_body env msg channel args db) =
    Reply ("Key " ++ repr env key ++ " is " ++
           (if k_locked k =? 0 then "not locked" else "locked") ++
           " and has " ++ Py.str (Z.of_nat (count_for_key db k)) ++
           " factoids associated with it: " ++
           Py.join "; " (factoidinfo_lines env 0 (facts_of db k))) /\
  List.length (factoidinfo_lines env 0 (facts_of db k)) = count_for_key db k.
Proof.
  intros Hk H L. split.
  - unfold factoidinfo_body. rewrite Hk.
    pose proof (select_key_lookup db key) as S. rewrite L in S. simpl in S.
    destruct (Sql.select_key db key) as [|[id locked] r]; [discriminate|].
    simpl in S. injection S as -> ->.
    fold (facts_of db k).
    rewrite (order_by_ascending f_id _ (facts_of_ascending db k H)).
    reflexivity.
  - now rewrite factoidinfo_lines_length.
Qed.

Lemma factoidinfo_counts_all_witness :
  fst (factoidinfo_body (Demo.env true 7) Demo.alice "#chan" ["topic"]
         (getDb Demo.many "#chan")) =
  Reply ("Key 'topic' is not locked and has 25 factoids associated with it: "
         ++ Py.join "; " (factoidinfo_lines (Demo.env true 7) 0
                            (facts_of (getDb Demo.many "#chan")
                                      (mkKey 1 "topic" 0)))).
Proof.
  exact (proj1 (factoidinfo_counts_all (Demo.env true 7) Demo.alice "#chan"
                  ["topic"] "topic" (mkKey 1 "topic" 0)
                  (getDb Demo.many "#chan") eq_refl
                  (reachable_wf _ "#chan") eq_refl)).
Defined.

(** X8.  When every factoid row has its key row, [randomfactoid] never
    raises: with no factoid stored it answers "I couldn't find a
    factoid.", and otherwise it replies with the text of a stored factoid
    after the text of the key that factoid belongs to.  With exactly one
    factoid stored it is that one, whatever the draw. *)
Theorem randomfactoid_answers env msg channel args db :
  no_orphan db ->
  (factoids db = [] ->
   fst (randomfactoid_body env msg channel args db) =
     Error "I couldn't find a factoid.") /\
  (factoids db <> [] ->
   exists f k, In f (factoids db) /\ In k (keys db) /\
               k_id k = f_key_id f /\
               fst (randomfactoid_body env msg channel args db) =
                 Reply (k_key k ++ ": " ++ f_fact f)) /\
  (forall f, factoids db = [f] ->
   exists k, In k (keys db) /\ k_id k = f_key_id f /\
             fst (randomfactoid_body env msg channel args db) =
               Reply (k_key k ++ ": " ++ f_fact f)).
Proof.
  intros H.
  assert (Hsome : forall f, In f (factoids db) ->
    exists k rest, filter (fun k => k_id k =? f_key_id f) (keys db) = k :: rest
                   /\ In k (keys db) /\ k_id k = f_key_id f).
  { intros f Hf. destruct (H f Hf) as (k & Hk & E).
    destruct (filter (fun k => k_id k =? f_key_id f) (keys db))
      as [|k' rest] eqn:F.
    - assert (Hin : In k (filter (fun k => k_id k =? f_key_id f) (keys db)))
        by (apply filter_In; split; [assumption|now apply Z.eqb_eq]).
      rewrite F in Hin. destruct Hin.
    - exists k', rest. split; [reflexivity|].
      assert (Hin : In k' (filter (fun k => k_id k =? f_key_id f) (keys db)))
        by (rewrite F; now left).
      apply filter_In in Hin. destruct Hin as [Hin Ek].
      apply Z.eqb_eq in Ek. tauto. }
  split; [|split].
  - intros E. unfold randomfactoid_body. now rewrite E.
  - intros Hne. unfold randomfactoid_body.
    destruct (factoids db) as [|f0 fs] eqn:F; [contradiction|].
    set (f := nth _ (f0 :: fs) f0).
    assert (Hf : In f (f0 :: fs)).
    { unfold f. apply nth_In. apply Nat.mod_upper_bound. discriminate. }
    destruct (Hsome f Hf) as (k & rest & Fk & Hk & E).
    exists f, k. rewrite Fk. tauto.
  - intros f E. unfold randomfactoid_body. rewrite E.
    assert (Hf : In f (factoids db)) by (rewrite E; now left).
    destruct (Hsome f Hf) as (k & rest & Fk & Hk & Ek).
    exists k. simpl List.length. rewrite Nat.mod_1_r. simpl nth. rewrite Fk.
    tauto.
Qed.

Lemma randomfactoid_answers_witness :
  exists k, In k (keys (getDb Demo.one_color "#chan")) /\
            k_id k = 1 /\
            fst (randomfactoid_body (Demo.env true 7) Demo.alice "#chan" []
                   (getDb Demo.one_color "#chan")) =
              Reply (k_key k ++ ": " ++ "blue").
Proof.
  destruct (randomfactoid_answers (Demo.env true 7) Demo.alice "#chan" []
              (getDb Demo.one_color "#chan")) as (_ & _ & H).
  - apply (run_no_orphan [Demo.call true Learn ["color"; "as"; "blue"]]
             noDbs).
    intros c f [].
  - exact (H (mkFactoid 1 1 "alice" 1000 "blue") eq_refl).
Defined.

(** ** [learn]: reading the arguments and storing the fact *)

Lemma index_first (x : string) (l r : list string) :
  ~ In x l -> Py.index x (l ++ x :: r) = Some (List.length l).
Proof.
  induction l as [|y l IH]; simpl; intros H.
  - now rewrite String.eqb_refl.
  - destruct (y =? x)%string eqn:E.
    + apply String.eqb_eq in E. exfalso. apply H. now left.
    + rewrite IH; [reflexivity|]. intros Hin. apply H. now right.
Qed.

Lemma pop_at_middle {A} (l r : list A) (x : A) :
  Py.pop_at (List.length l) (l ++ x :: r) = (l ++ r)%list.
Proof.
  unfold Py.pop_at. induction l as [|a l IH]; [reflexivity|].
  simpl in *. now rewrite IH.
Qed.

(** [learn] splits its words at the first "as": the words before it are
    the key, all the words after it (further "as" included) the fact. *)
Lemma learn_body_split env msg channel (kws fws : list string) db :
  ~ In "as" kws ->
  learn_body env msg channel (kws ++ "as" :: fws) db =
  match resolve_key db (Py.join " " kws) with
  | (None, db) => (Raised TypeError, db)
  | (Some (id, locked), db) =>
      let capability := makeChannelCapability env channel "factoids" in
      if locked =? 0 then
        if negb (checkCapability env (prefix msg) capability) then
          (Error (replyNoCapability env capability), db)
        else
          (Reply (replySuccess env),
           Sql.insert_factoid db id
             (if hasUser env (prefix msg) then getUserName env (prefix msg)
              else nick msg)
             (time env) (Py.join " " fws))
      else (Error "That factoid is locked.", db)
  end.
Proof.
  intros H. unfold learn_body. rewrite (index_first _ _ _ H), pop_at_middle.
  rewrite firstn_app, firstn_all, Nat.sub_diag. simpl firstn.
  rewrite app_nil_r.
  rewrite skipn_app, skipn_all, Nat.sub_diag. reflexivity.
Qed.

Lemma new_key_id_unused (db : Db) :
  no_orphan db ->
  filter (fun f => f_key_id f =? new_key_id db) (factoids db) = [].
Proof.
  intros H.
  destruct (filter _ (factoids db)) as [|f r] eqn:F; [reflexivity|].
  assert (Hf : In f (filter (fun f => f_key_id f =? new_key_id db)
                        (factoids db))) by (rewrite F; now left).
  apply filter_In in Hf. destruct Hf as [Hf E]. apply Z.eqb_eq in E.
  destruct (H f Hf) as (k & Hk & Ek).
  pose proof (next_rowid_above (map k_id (keys db)) (k_id k)
                (in_map k_id _ _ Hk)) as Hlt.
  unfold new_key_id in E. lia.
Qed.

(** X9.  [learn] by a caller with the capability on a text that has no key
    row: the reply is the success reply, the [keys] table gains one
    unlocked row for the text, the [factoids] table gains one row with the
    fact, the name of the caller and the time, and a [whatis] query on the
    text now returns exactly that fact.  The key is the words before the
    first "as" and the fact the words after it. *)
Theorem learn_new_key_round_trip env msg channel (kws fws : list string) db :
  ~ In "as" kws ->
  checkCapability env (prefix msg)
    (makeChannelCapability env channel "factoids") = true ->
  wf db -> no_orphan db ->
  lookup db (Py.join " " kws) = None ->
  let key := Py.join " " kws in
  let fact := Py.join " " fws in
  let name := if hasUser env (prefix msg) then getUserName env (prefix msg)
              else nick msg in
  let r := learn_body env msg channel (kws ++ "as" :: fws) db in
  fst r = Reply (replySuccess env) /\
  keys (snd r) = (keys db ++ [mkKey (new_key_id db) key 0])%list /\
  factoids (snd r) =
    (factoids db ++
     [mkFactoid (Sql.next_rowid (map f_id (factoids db))) (new_key_id db)
                name (time env) fact])%list /\
  lookup (snd r) key = Some (mkKey (new_key_id db) key 0) /\
  whatis_rows (snd r) key = [fact].
Proof.
  intros Has Hc H Ho L key fact name r.
  change (lookup db key = None) in L.
  assert (Hw : wf (snd r)) by now apply learn_body_wf.
  assert (E : r = (Reply (replySuccess env),
                   Sql.insert_factoid (with_new_key db key) (new_key_id db)
                                      name (time env) fact)).
  { unfold r. rewrite (learn_body_split _ _ _ _ _ _ Has).
    fold key. rewrite (resolve_key_absent db key L). simpl. now rewrite Hc. }
  rewrite E in *. simpl fst. simpl snd. simpl snd in Hw.
  assert (Lk : lookup (Sql.insert_factoid (with_new_key db key)
                         (new_key_id db) name (time env) fact) key =
               Some (mkKey (new_key_id db) key 0)).
  { unfold lookup. simpl. rewrite filter_app, (lookup_None _ _ L). simpl.
    now rewrite String.eqb_refl. }
  repeat split; trivial.
  unfold whatis_rows. rewrite (key_factoids_lookup _ key Hw), Lk.
  unfold facts_of. simpl. rewrite filter_app, (new_key_id_unused db Ho).
  simpl. now rewrite Z.eqb_refl.
Qed.

Lemma learn_new_key_round_trip_witness :
  whatis_rows
    (snd (learn_body (Demo.env true 7) Demo.alice "#chan"
            ["widget"; "as"; "a"; "thing"] (getDb Demo.two_colors "#chan")))
    "widget" = ["a thing"].
Proof.
  destruct (learn_new_key_round_trip (Demo.env true 7) Demo.alice "#chan"
              ["widget"] ["a"; "thing"] (getDb Demo.two_colors "#chan"))
    as (_ & _ & _ & _ & H).
  - intros [E|[]]. discriminate E.
  - reflexivity.
  - exact (reachable_wf _ "#chan").
  - apply (run_no_orphan _ noDbs). intros c f [].
  - reflexivity.
  - exact H.
Defined.

(** X10.  [learn] by a caller with the capability on a key that exists and
    is not locked: the [keys] table is unchanged, the new factoid gets an
    id above every id of the table, and in the ordering of the key's
    factoids it comes last, after the factoids the key had, which keep
    their positions. *)
Theorem learn_appends_last env msg channel (kws fws : list string) db k :
  ~ In "as" kws ->
  checkCapability env (prefix msg)
    (makeChannelCapability env channel "factoids") = true ->
  wf db ->
  lookup db (Py.join " " kws) = Some k ->
  k_locked k = 0 ->
  let key := Py.join " " kws in
  let new := mkFactoid (Sql.next_rowid (map f_id (factoids db))) (k_id k)
               (if hasUser env (prefix msg) then getUserName env (prefix msg)
                else nick msg)
               (time env) (Py.join " " fws) in
  let r := learn_body env msg channel (kws ++ "as" :: fws) db in
  fst r = Reply (replySuccess env) /\
  keys (snd r) = keys db /\
  factoids (snd r) = (factoids db ++ [new])%list /\
  key_factoids (snd r) key = (key_factoids db key ++ [new])%list /\
  (forall g, In g (factoids db) -> f_id g < f_id new).
Proof.
  intros Has Hc H L Hl key new r.
  change (lookup db key = Some k) in L.
  assert (Hw : wf (snd r)) by now apply learn_body_wf.
  assert (E : r = (Reply (replySuccess env),
                   mkDb (keys db) (factoids db ++ [new]))).
  { unfold r. rewrite (learn_body_split _ _ _ _ _ _ Has).
    fold key. rewrite (resolve_key_existing db key k L), Hl. simpl.
    now rewrite Hc. }
  rewrite E in *. simpl fst. simpl snd. simpl snd in Hw.
  split; [reflexivity|]. split; [reflexivity|]. split; [reflexivity|]. split.
  - rewrite (key_factoids_lookup _ key Hw), (key_factoids_lookup _ key H).
    unfold lookup. simpl. fold (lookup db key). rewrite L.
    unfold facts_of. simpl. rewrite filter_app. simpl.
    now rewrite Z.eqb_refl.
  - intros g Hg. simpl. apply next_rowid_above. now apply in_map.
Qed.

Lemma learn_appends_last_witness :
  map f_fact
    (key_factoids
       (snd (learn_body (Demo.env true 7) Demo.alice "#chan"
               ["color"; "as"; "as"; "green"]
               (getDb Demo.two_colors "#chan"))) "color") =
  ["blue"; "red"; "as green"].
Proof.
  destruct (learn_appends_last (Demo.env true 7) Demo.alice "#chan"
              ["color"] ["as"; "green"] (getDb Demo.two_colors "#chan")
              (mkKey 1 "color" 0)) as (_ & _ & _ & H & _).
  - intros [E|[]]. discriminate E.
  - reflexivity.
  - exact (reachable_wf _ "#chan").
  - reflexivity.
  - reflexivity.
  - exact (f_equal (map f_fact) H).
Defined.

(** X11.  [learn] by a caller without the capability never writes a
    factoid row and never answers with a reply, whatever its arguments. *)
Theorem learn_without_capability_writes_no_factoid env msg channel args db :
  checkCapability env (prefix msg)
    (makeChannelCapability env channel "factoids") = false ->
  factoids (snd (learn_body env msg channel args db)) = factoids db /\
  forall s, fst (learn_body env msg channel args db) <> Reply s.
Proof.
  intros Hc. unfold learn_body.
  destruct (Py.index "as" args) as [i|]; [|split; [reflexivity|discriminate]].
  set (key := Py.join " " (firstn i (Py.pop_at i args))).
  destruct (lookup db key) as [k|] eqn:L.
  - rewrite (resolve_key_existing _ _ _ L).
    destruct (k_locked k =? 0); [|split; [reflexivity|discriminate]].
    rewrite Hc. simpl. split; [reflexivity|discriminate].
  - rewrite (resolve_key_absent _ _ L). simpl. rewrite Hc. simpl.
    split; [reflexivity|discriminate].
Qed.

Lemma learn_without_capability_writes_no_factoid_witness :
  factoids (snd (learn_body (Demo.env false 7) Demo.alice "#chan"
                   ["color"; "as"; "green"] (getDb Demo.two_colors "#chan"))) =
  factoids (getDb Demo.two_colors "#chan").
Proof.
  exact (proj1 (learn_without_capability_writes_no_factoid
                  (Demo.env false 7) Demo.alice "#chan"
                  ["color"; "as"; "green"] (getDb Demo.two_colors "#chan")
                  eq_refl)).
Defined.

(** ** [lock], [unlock] and [unlearn] without the capability *)

(** X12.  [lock], [unlock] and [unlearn] by a caller without the
    capability change nothing and never answer with a reply; when their
    arguments can be read the answer is the missing-capability error. *)
Theorem mutators_need_capability env msg channel v args db :
  checkCapability env (prefix msg)
    (makeChannelCapability env channel "factoids") = false ->
  snd (set_locked_body v env msg channel args db) = db /\
  snd (unlearn_body env msg channel args db) = db /\
  (forall s, fst (set_locked_body v env msg channel args db) <> Reply s) /\
  (forall s, fst (unlearn_body env msg channel args db) <> Reply s) /\
  (forall key, getArgs env args = inr key ->
     fst (set_locked_body v env msg channel args db) =
       Error (replyNoCapability env
                (makeChannelCapability env channel "factoids"))) /\
  (forall words word n key,
     args = (words ++ [word])%list -> Py.int word = Some n ->
     getArgs env words = inr key ->
     fst (unlearn_body env msg channel args db) =
       Error (replyNoCapability env
                (makeChannelCapability env channel "factoids"))).
Proof.
  intros Hc. unfold set_locked_body, unlearn_body, unlearn_rest.
  split; [|split; [|split; [|split; [|split]]]].
  - destruct (getArgs env args); [reflexivity|]. now rewrite Hc.
  - destruct (unlearn_number args) as [e|[number args']]; [reflexivity|].
    destruct (getArgs env args'); [reflexivity|]. now rewrite Hc.
  - intros s. destruct (getArgs env args); [discriminate|].
    rewrite Hc. discriminate.
  - intros s.
    destruct (unlearn_number args) as [e|[number args']]; [discriminate|].
    destruct (getArgs env args'); [discriminate|]. rewrite Hc. discriminate.
  - intros key Hk. now rewrite Hk, Hc.
  - intros words word n key -> Hn Hk.
    now rewrite unlearn_number_snoc, Hn, Hk, Hc.
Qed.

Lemma mutators_need_capability_witness :
  snd (unlearn_body (Demo.env false 7) Demo.alice "#chan" ["color"; "0"]
         (getDb Demo.two_colors "#chan")) = getDb Demo.two_colors "#chan".
Proof.
  destruct (mutators_need_capability (Demo.env false 7) Demo.alice "#chan" 1
              ["color"; "0"] (getDb Demo.two_colors "#chan") eq_refl)
    as (_ & H & _).
  exact H.
Defined.

(** ** [lock] and [unlock] against [learn] *)

Lemma update_locked_twice (db : Db) (key : string) (v w : Z) :
  Sql.update_locked (Sql.update_locked db key v) key w =
  Sql.update_locked db key w.
Proof.
  unfold Sql.update_locked. simpl. f_equal. rewrite map_map.
  apply map_ext. intros a.
  destruct (k_key a =? key)%string eqn:E; simpl; now rewrite E.
Qed.

Lemma update_locked_same (db : Db) (key : string) (k : KeyRow) :
  wf db -> lookup db key = Some k ->
  Sql.update_locked db key (k_locked k) = db.
Proof.
  intros H L. unfold Sql.update_locked. destruct db as [ks fs]. simpl.
  f_equal. rewrite <- (map_id ks) at 2. apply map_ext_in. intros a Ha.
  destruct (k_key a =? key)%string eqn:E; [|reflexivity].
  assert (Hin : In a (filter (fun k => (k_key k =? key)%string) ks))
    by (apply filter_In; tauto).
  pose proof (lookup_filter (mkDb ks fs) key (wf_text _ H)) as F.
  simpl in F. rewrite F, L in Hin. destruct Hin as [<-|[]].
  now destruct k.
Qed.

Lemma lookup_update_locked_other (db : Db) (key key' : string) (v : Z) :
  key' <> key ->
  lookup (Sql.update_locked db key v) key' = lookup db key'.
Proof.
  intros Hne. unfold lookup, Sql.update_locked. simpl.
  induction (keys db) as [|a ks IH]; simpl; [reflexivity|].
  destruct (k_key a =? key)%string eqn:E; simpl.
  - apply String.eqb_eq in E.
    destruct (k_key a =? key')%string eqn:E'; [|exact IH].
    apply String.eqb_eq in E'. congruence.
  - destruct (k_key a =? key')%string; [reflexivity|exact IH].
Qed.

(** X13.  After [lock] of an existing key, [learn] on that key answers
    "That factoid is locked." to every caller and changes nothing; after a
    following [unlock], [learn] by a caller with the capability succeeds
    again.  If the key was not locked to begin with, [lock] followed by
    [unlock] gives back the database as it was. *)
Theorem lock_gates_learn env msg channel (words kws fws : list string) db k :
  getArgs env words = inr (Py.join " " kws) ->
  checkCapability env (prefix msg)
    (makeChannelCapability env channel "factoids") = true ->
  ~ In "as" kws ->
  wf db ->
  lookup db (Py.join " " kws) = Some k ->
  let locked := snd (set_locked_body 1 env msg channel words db) in
  let unlocked := snd (set_locked_body 0 env msg channel words locked) in
  (forall env' msg',
     learn_body env' msg' channel (kws ++ "as" :: fws) locked =
     (Error "That factoid is locked.", locked)) /\
  fst (learn_body env msg channel (kws ++ "as" :: fws) unlocked) =
    Reply (replySuccess env) /\
  (k_locked k = 0 -> unlocked = db).
Proof.
  intros Hk Hc Has H L locked unlocked.
  set (key := Py.join " " kws) in *.
  assert (El : locked = Sql.update_locked db key 1).
  { unfold locked, set_locked_body. now rewrite Hk, Hc. }
  assert (Eu : unlocked = Sql.update_locked db key 0).
  { unfold unlocked, set_locked_body. rewrite Hk, Hc. simpl.
    rewrite El. apply update_locked_twice. }
  split; [|split].
  - intros env' msg'. rewrite (learn_body_split _ _ _ _ _ _ Has). fold key.
    assert (Ll : lookup locked key = Some (mkKey (k_id k) (k_key k) 1))
      by now rewrite El, lookup_update_locked, L.
    now rewrite (resolve_key_existing _ _ _ Ll).
  - rewrite (learn_body_split _ _ _ _ _ _ Has). fold key.
    assert (Lu : lookup unlocked key = Some (mkKey (k_id k) (k_key k) 0))
      by now rewrite Eu, lookup_update_locked, L.
    rewrite (resolve_key_existing _ _ _ Lu). simpl. now rewrite Hc.
  - intros Hz. rewrite Eu, <- Hz. now apply update_locked_same.
Qed.

Lemma lock_gates_learn_witness :
  learn_body (Demo.env true 9) Demo.alice "#chan" ["color"; "as"; "green"]
    (snd (set_locked_body 1 (Demo.env true 7) Demo.alice "#chan" ["color"]
            (getDb Demo.two_colors "#chan"))) =
  (Error "That factoid is locked.",
   snd (set_locked_body 1 (Demo.env true 7) Demo.alice "#chan" ["color"]
          (getDb Demo.two_colors "#chan"))).
Proof.
  destruct (lock_gates_learn (Demo.env true 7) Demo.alice "#chan"
              ["color"] ["color"] ["green"] (getDb Demo.two_colors "#chan")
              (mkKey 1 "color" 0)) as (H & _).
  - reflexivity.
  - reflexivity.
  - intros [E|[]]. discriminate E.
  - exact (reachable_wf _ "#chan").
  - reflexivity.
  - exact (H (Demo.env true 9) Demo.alice).
Defined.

(** X14.  [lock] and [unlock] write one column of the rows with the given
    text and nothing else: the [factoids] table, the ids and texts of all
    key rows, and the rows of every other text stay as they are. *)
Theorem set_locked_touches_one_flag v env msg channel args key db :
  getArgs env args = inr key ->
  let db' := snd (set_locked_body v env msg channel args db) in
  factoids db' = factoids db /\
  map k_id (keys db') = map k_id (keys db) /\
  map k_key (keys db') = map k_key (keys db) /\
  (forall key', key' <> key -> lookup db' key' = lookup db key').
Proof.
  intros Hk db'. unfold db', set_locked_body. rewrite Hk.
  destruct (checkCapability env _ _); simpl; [|tauto].
  repeat split.
  - rewrite map_map. apply map_ext. intros a.
    now destruct (k_key a =? key)%string.
  - rewrite map_map. apply map_ext. intros a.
    now destruct (k_key a =? key)%string.
  - intros key' Hne. now apply lookup_update_locked_other.
Qed.

Lemma set_locked_touches_one_flag_witness :
  factoids (snd (set_locked_body 1 (Demo.env true 7) Demo.alice "#chan"
                   ["color"] (getDb Demo.two_colors "#chan"))) =
  factoids (getDb Demo.two_colors "#chan").
Proof.
  exact (proj1 (set_locked_touches_one_flag 1 (Demo.env true 7) Demo.alice
                  "#chan" ["color"] "color" (getDb Demo.two_colors "#chan")
                  eq_refl)).
Defined.

(** ** [unlearn]: the number *)

Lemma learn_body_new_key env msg channel (kws fws : list string) db :
  ~ In "as" kws ->
  checkCapability env (prefix msg)
    (makeChannelCapability env channel "factoids") = true ->
  lookup db (Py.join " " kws) = None ->
  learn_body env msg channel (kws ++ "as" :: fws) db =
  (Reply (replySuccess env),
   Sql.insert_factoid (with_new_key db (Py.join " " kws)) (new_key_id db)
     (if hasUser env (prefix msg) then getUserName env (prefix msg)
      else nick msg)
     (time env) (Py.join " " fws)).
Proof.
  intros Has Hc L. rewrite (learn_body_split _ _ _ _ _ _ Has).
  rewrite (resolve_key_absent _ _ L). simpl. now rewrite Hc.
Qed.

(** X15.  When a key has exactly one factoid, [unlearn] by a caller with
    the capability removes that factoid and the key row whatever number it
    is given, in range or not.  The text then has no key row, the other
    keys are as before, and a later [learn] on the text makes a new key row
    that is not locked, even if the old one was. *)
Theorem unlearn_last_fact_forgets_key env msg channel (words : list string)
    (word : string) n key k f db :
  Py.int word = Some n ->
  getArgs env words = inr key ->
  checkCapability env (prefix msg)
    (makeChannelCapability env channel "factoids") = true ->
  wf db ->
  lookup db key = Some k ->
  facts_of db k = [f] ->
  let r := unlearn_body env msg channel (words ++ [word]) db in
  fst r = Reply (replySuccess env) /\
  factoids (snd r) = filter (fun g => negb (f_id g =? f_id f)) (factoids db) /\
  lookup (snd r) key = None /\
  (forall key', key' <> key -> lookup (snd r) key' = lookup db key') /\
  (forall kws fws, ~ In "as" kws -> Py.join " " kws = key ->
     lookup (snd (learn_body env msg channel (kws ++ "as" :: fws) (snd r)))
            key = Some (mkKey (new_key_id (snd r)) key 0)).
Proof.
  intros Hn Hk Hc H L F r.
  assert (E : r = unlearn_rest env msg channel (Some n) words db).
  { unfold r, unlearn_body. now rewrite unlearn_number_snoc, Hn. }
  destruct (unlearn_rest_single env msg channel (Some n) words key k f db
              Hk Hc H L F) as (H1 & H2 & H3 & H4).
  rewrite <- E in H1, H2, H3, H4.
  split; [exact H1|]. split; [exact H2|]. split; [exact H3|].
  split; [exact H4|].
  intros kws fws Has <-.
  rewrite (learn_body_new_key env msg channel kws fws (snd r) Has Hc H3).
  unfold lookup. simpl. fold (lookup (snd r) (Py.join " " kws)).
  rewrite filter_app, (lookup_None _ _ H3). simpl.
  now rewrite String.eqb_refl.
Qed.

Lemma unlearn_last_fact_forgets_key_witness :
  lookup (snd (unlearn_body (Demo.env true 7) Demo.alice "#chan"
                 ["color"; "7"] (getDb Demo.one_color "#chan"))) "color" =
  None.
Proof.
  destruct (unlearn_last_fact_forgets_key (Demo.env true 7) Demo.alice
              "#chan" ["color"] "7" 7 "color" (mkKey 1 "color" 0)
              (mkFactoid 1 1 "alice" 1000 "blue")
              (getDb Demo.one_color "#chan")
              eq_refl eq_refl eq_refl (reachable_wf _ "#chan")
              eq_refl eq_refl) as (_ & _ & H & _).
  exact H.
Defined.

(** X16.  When a key has [N] factoids, [N] above one, [unlearn] with a
    number at or above [N], or below [-N], answers "Invalid factoid
    number." and changes nothing. *)
Theorem unlearn_rejects_far_numbers env msg channel (words : list string)
    (word : string) n key k db :
  Py.int word = Some n ->
  getArgs env words = inr key ->
  checkCapability env (prefix msg)
    (makeChannelCapability env channel "factoids") = true ->
  wf db ->
  lookup db key = Some k ->
  (1 < count_for_key db k)%nat ->
  Z.of_nat (count_for_key db k) <= n \/ n < - Z.of_nat (count_for_key db k) ->
  unlearn_body env msg channel (words ++ [word]) db =
  (Error "Invalid factoid number.", db).
Proof.
  intros Hn Hk Hc H L HN Hr.
  rewrite (unlearn_body_number env msg channel words word n key k db
             Hn Hk Hc H L).
  rewrite count_for_key_facts_of in *.
  destruct (facts_of db k) as [|f [|g r]]; simpl in HN; try lia.
  now rewrite getitem_out_of_range.
Qed.

Lemma unlearn_rejects_far_numbers_witness :
  unlearn_body (Demo.env true 7) Demo.alice "#chan" ["color"; "-3"]
    (getDb Demo.two_colors "#chan") =
  (Error "Invalid factoid number.", getDb Demo.two_colors "#chan").
Proof.
  apply (unlearn_rejects_far_numbers (Demo.env true 7) Demo.alice "#chan"
           ["color"] "-3" (-3) "color" (mkKey 1 "color" 0)).
  - reflexivity.
  - reflexivity.
  - reflexivity.
  - exact (reachable_wf _ "#chan").
  - reflexivity.
  - vm_compute. lia.
  - right. vm_compute. reflexivity.
Defined.

(** X17.  When a key has [N] factoids, [N] above one, [unlearn] with a
    negative number [n] from [-N] to [-1] is not refused: it removes the
    factoid at position [N + n] of the key's ordering, the last one for
    [-1], and leaves the [keys] table alone. *)
Theorem unlearn_negative_counts_from_end env msg channel
    (words : list string) (word : string) n key k f db :
  Py.int word = Some n ->
  getArgs env words = inr key ->
  checkCapability env (prefix msg)
    (makeChannelCapability env channel "factoids") = true ->
  wf db ->
  lookup db key = Some k ->
  (1 < count_for_key db k)%nat ->
  - Z.of_nat (count_for_key db k) <= n < 0 ->
  nth_error (key_factoids db key)
            (Z.to_nat (Z.of_nat (count_for_key db k) + n)) = Some f ->
  unlearn_body env msg channel (words ++ [word]) db =
  (Reply (replySuccess env),
   mkDb (keys db) (filter (fun g => negb (f_id g =? f_id f)) (factoids db))).
Proof.
  intros Hn Hk Hc H L HN Hr Hf.
  rewrite (key_factoids_lookup db key H), L in Hf.
  rewrite (unlearn_body_number env msg channel words word n key k db
             Hn Hk Hc H L).
  rewrite count_for_key_facts_of in *.
  destruct (facts_of db k) as [|a [|b r]] eqn:F; simpl in HN; try lia.
  destruct (getitem_negative (a :: b :: r) n) as [E _]; [exact Hr|].
  unfold Py.len in E. now rewrite E, Hf.
Qed.

Lemma unlearn_negative_counts_from_end_witness :
  unlearn_body (Demo.env true 7) Demo.alice "#chan" ["color"; "-2"]
    (getDb Demo.two_colors "#chan") =
  (Reply "The operation succeeded.",
   mkDb [mkKey 1 "color" 0] [mkFactoid 2 1 "alice" 1000 "red"]).
Proof.
  apply (unlearn_negative_counts_from_end (Demo.env true 7) Demo.alice
           "#chan" ["color"] "-2" (-2) "color" (mkKey 1 "color" 0)
           (mkFactoid 1 1 "alice" 1000 "blue")).
  - reflexivity.
  - reflexivity.
  - reflexivity.
  - exact (reachable_wf _ "#chan").
  - reflexivity.
  - vm_compute. lia.
  - change (- 2 <= - 2 < 0). lia.
  - reflexivity.
Defined.

(** X18.  [unlearn] reads its last word as a number before anything else:
    when that word is not a number the command raises ValueError, and with
    no word at all IndexError, in both cases before the capability is
    checked and without touching the database. *)
Theorem unlearn_needs_a_number env msg channel (words : list string)
    (word : string) db :
  Py.int word = None ->
  unlearn_body env msg channel (words ++ [word]) db = (Raised ValueError, db) /\
  unlearn_body env msg channel [] db = (Raised IndexError, db).
Proof.
  intros Hn. unfold unlearn_body. now rewrite unlearn_number_snoc, Hn.
Qed.

Lemma unlearn_needs_a_number_witness :
  unlearn_body (Demo.env false 7) Demo.alice "#chan" ["route"; "sixty-six"]
    (getDb Demo.two_colors "#chan") =
  (Raised ValueError, getDb Demo.two_colors "#chan").
Proof.
  exact (proj1 (unlearn_needs_a_number (Demo.env false 7) Demo.alice "#chan"
                  ["route"] "sixty-six" (getDb Demo.two_colors "#chan")
                  eq_refl)).
Defined.

(** ** The number [whatis] prints is the number [unlearn] reads *)

Lemma digits_val_acc (d : Decimal.uint) (acc : positive) :
  Py.digits_val (Z.pos acc)
    (list_ascii_of_string (NilEmpty.string_of_uint d)) =
  Some (Z.pos (Pos.of_uint_acc d acc)).
Proof.
  revert acc. induction d; intros acc; cbn [NilEmpty.string_of_uint
    list_ascii_of_string Py.digits_val Pos.of_uint_acc];
    [reflexivity|..];
    match goal with
    | |- context [Py.digit_val ?c] =>
        let v := eval vm_compute in (Py.digit_val c) in
        change (Py.digit_val c) with v
    end; cbv iota;
    match goal with
    | |- Py.digits_val ?a _ = Some (Z.pos (Pos.of_uint_acc _ ?b)) =>
        replace a with (Z.pos b) by lia
    end; apply IHd.
Qed.

Lemma digits_val_uint (d : Decimal.uint) :
  Py.digits_val 0 (list_ascii_of_string (NilEmpty.string_of_uint d)) =
  Some (Z.of_uint d).
Proof.
  unfold Z.of_uint.
  induction d; cbn [NilEmpty.string_of_uint list_ascii_of_string
    Py.digits_val Pos.of_uint]; [reflexivity|..];
    match goal with
    | |- context [Py.digit_val ?c] =>
        let v := eval vm_compute in (Py.digit_val c) in
        change (Py.digit_val c) with v
    end; cbv iota; change (10 * 0) with 0; cbn [Z.add];
    [exact IHd|apply digits_val_acc..].
Qed.

Lemma digits_no_space (d : Decimal.uint) :
  Forall (fun c => Py.is_space c = false)
         (list_ascii_of_string (NilEmpty.string_of_uint d)).
Proof.
  induction d; cbn [NilEmpty.string_of_uint list_ascii_of_string];
    constructor; trivial.
Qed.

Lemma lstrip_no_space (cs : list ascii) :
  Forall (fun c => Py.is_space c = false) cs -> Py.lstrip cs = cs.
Proof.
  destruct cs as [|c r]; [reflexivity|].
  intros H. inversion H as [|? ? Hc Hr]; subst. simpl. now rewrite Hc.
Qed.

Lemma strip_no_space (cs : list ascii) :
  Forall (fun c => Py.is_space c = false) cs -> Py.strip cs = cs.
Proof.
  intros H. unfold Py.strip. rewrite (lstrip_no_space cs H).
  rewrite lstrip_no_space; [apply rev_involutive|].
  apply Forall_rev. exact H.
Qed.

(** [int] reads back what ['%s' %] prints for an unsigned decimal. *)
Lemma int_string_of_uint (d : Decimal.uint) :
  Py.int (NilZero.string_of_uint d) = Some (Z.of_uint d).
Proof.
  destruct d eqn:D; [reflexivity|..];
    unfold NilZero.string_of_uint; rewrite <- D;
    unfold Py.int; rewrite (strip_no_space _ (digits_no_space d));
    rewrite <- (digits_val_uint d); rewrite D;
    cbn [NilEmpty.string_of_uint list_ascii_of_string]; reflexivity.
Qed.

Lemma int_str (n : Z) : Py.int (Py.str n) = Some n.
Proof.
  unfold Py.str.
  rewrite <- (DecimalZ.of_to n) at 2.
  destruct (Z.to_int n) as [d|d]; cbn [NilZero.string_of_int Z.of_int].
  - apply int_string_of_uint.
  - pose proof (int_string_of_uint d) as H. unfold Py.int in *.
    assert (Hs : Forall (fun c => Py.is_space c = false)
                   (list_ascii_of_string (NilZero.string_of_uint d))).
    { destruct d; try apply digits_no_space. repeat constructor. }
    rewrite (strip_no_space _ Hs) in H.
    cbn [list_ascii_of_string].
    rewrite strip_no_space by (constructor; [reflexivity|exact Hs]).
    change (Ascii.eqb "-" "-") with true. cbv iota.
    destruct (list_ascii_of_string (NilZero.string_of_uint d)) as [|c r] eqn:E;
      [discriminate|].
    assert (Hd : Py.digits_val 0 (c :: r) = Some (Z.of_uint d)).
    { revert H. inversion Hs as [|? ? Hc Hr]; subst.
      destruct (Ascii.eqb c "-") eqn:E1.
      - apply Ascii.eqb_eq in E1. subst c. exfalso.
        destruct d; simpl in E; try discriminate;
          injection E as E _; discriminate.
      - destruct (Ascii.eqb c "+") eqn:E2; [|trivial].
        apply Ascii.eqb_eq in E2. subst c. exfalso.
        destruct d; simpl in E; try discriminate;
          injection E as E _; discriminate. }
    now rewrite Hd.
Qed.

Lemma whatis_factoids_nth (counter : Z) (rows : list string) (i : nat)
    (fact : string) :
  nth_error rows i = Some fact ->
  nth_error (whatis_factoids counter rows) i =
  Some ("(#" ++ Py.str (counter + Z.of_nat i) ++ ") " ++ fact).
Proof.
  revert counter i. induction rows as [|r rows IH]; intros counter [|i] H;
    try discriminate; simpl in H.
  - injection H as ->. simpl. now rewrite Z.add_0_r.
  - cbn [whatis_factoids nth_error]. rewrite (IH (counter + 1) i H).
    replace (counter + Z.of_nat (S i)) with (counter + 1 + Z.of_nat i) by lia.
    reflexivity.
Qed.

Lemma nth_error_firstn_lt {A} (n i : nat) (l : list A) :
  (i < n)%nat -> nth_error (firstn n l) i = nth_error l i.
Proof.
  revert n i. induction l as [|a l IH]; intros [|n] [|i] H; simpl;
    try reflexivity; try lia.
  apply IH. lia.
Qed.

(** X19.  The number [whatis] prints in front of a fact is the number that
    makes [unlearn] remove that fact: if [f] is at position [i] of the
    key's ordering, [whatis] (for [i] below twenty) lists it as
    ["(#i) fact"], and [unlearn] called by a caller with the capability
    with the words of the key followed by the decimal text of [i] removes
    the row [f] and no other. *)
Theorem whatis_label_selects_factoid env msg channel (words : list string)
    (i : nat) key f db :
  getArgs env words = inr key ->
  checkCapability env (prefix msg)
    (makeChannelCapability env channel "factoids") = true ->
  wf db ->
  nth_error (key_factoids db key) i = Some f ->
  ((i < 20)%nat ->
   nth_error (whatis_factoids 0 (whatis_rows db key)) i =
     Some ("(#" ++ Py.str (Z.of_nat i) ++ ") " ++ f_fact f)) /\
  fst (unlearn_body env msg channel (words ++ [Py.str (Z.of_nat i)]) db) =
    Reply (replySuccess env) /\
  factoids (snd (unlearn_body env msg channel
                   (words ++ [Py.str (Z.of_nat i)]) db)) =
    filter (fun g => negb (f_id g =? f_id f)) (factoids db).
Proof.
  intros Hk Hc H Hf. split.
  - intros Hi.
    rewrite (whatis_factoids_nth 0 _ i (f_fact f)); [reflexivity|].
    unfold whatis_rows. rewrite nth_error_map, (nth_error_firstn_lt _ _ _ Hi).
    now rewrite Hf.
  - destruct (key_factoids_nth_lookup _ _ _ _ H Hf) as (k & L & Hfk).
    rewrite (unlearn_body_nth env msg channel words _ i key k f db
               (int_str (Z.of_nat i)) Hk Hc H L Hfk).
    split; reflexivity.
Qed.

Lemma whatis_label_selects_factoid_witness :
  nth_error (whatis_factoids 0 (whatis_rows (getDb Demo.two_colors "#chan")
                                            "color")) 1 =
    Some "(#1) red" /\
  factoids (snd (unlearn_body (Demo.env true 7) Demo.alice "#chan"
                   ["color"; "1"] (getDb Demo.two_colors "#chan"))) =
    [mkFactoid 1 1 "alice" 1000 "blue"].
Proof.
  destruct (whatis_label_selects_factoid (Demo.env true 7) Demo.alice "#chan"
              ["color"] 1 "color" (mkFactoid 2 1 "alice" 1000 "red")
              (getDb Demo.two_colors "#chan") eq_refl eq_refl
              (reachable_wf _ "#chan") eq_refl) as (H1 & _ & H3).
  split.
  - apply H1. lia.
  - exact H3.
Defined.

(** ** What [learn] and [unlearn] never do *)

(** X20.  The key resolution of [learn] (lines 96-101) is idempotent:
    run a second time on the same text it fetches the same row and leaves
    the database as the first run left it, so repeated [learn] on one text
    never makes a second key row. *)
Theorem resolve_key_idempotent (db : Db) (key : string) :
  resolve_key (snd (resolve_key db key)) key = resolve_key db key /\
  exists k, lookup (snd (resolve_key db key)) key = Some k /\
            fst (resolve_key db key) = Some (k_id k, k_locked k).
Proof.
  destruct (lookup db key) as [k|] eqn:L.
  - rewrite (resolve_key_existing _ _ _ L). simpl.
    split; [now apply resolve_key_existing|]. now exists k.
  - rewrite (resolve_key_absent _ _ L). simpl.
    assert (L' : lookup (mkDb (keys db ++ [mkKey (Sql.next_rowid
                                  (map k_id (keys db))) key 0])
                              (factoids db)) key =
                 Some (mkKey (Sql.next_rowid (map k_id (keys db))) key 0)).
    { unfold lookup. simpl. rewrite filter_app, (lookup_None _ _ L). simpl.
      now rewrite String.eqb_refl. }
    split; [now rewrite (resolve_key_existing _ _ _ L')|].
    eexists. split; [exact L'|reflexivity].
Qed.

Lemma index_absent (x : string) (l : list string) :
  ~ In x l -> Py.index x l = None.
Proof.
  induction l as [|y l IH]; simpl; intros H; [reflexivity|].
  destruct (y =? x)%string eqn:E.
  - apply String.eqb_eq in E. exfalso. apply H. now left.
  - rewrite IH; [reflexivity|]. intros Hin. apply H. now right.
Qed.

(** X21.  [learn] whose words do not contain the word "as" raises
    ArgumentError and leaves the database as it is: no key row is made. *)
Theorem learn_needs_as env msg channel args db :
  ~ In "as" args ->
  learn_body env msg channel args db = (Raised ArgumentError, db).
Proof.
  intros H. unfold learn_body. now rewrite (index_absent _ _ H).
Qed.

Lemma learn_needs_as_witness :
  learn_body (Demo.env true 7) Demo.alice "#chan" ["color"; "is"; "green"]
    (getDb Demo.two_colors "#chan") =
  (Raised ArgumentError, getDb Demo.two_colors "#chan").
Proof.
  apply (learn_needs_as (Demo.env true 7) Demo.alice "#chan"
           ["color"; "is"; "green"] (getDb Demo.two_colors "#chan")).
  intros [E|[E|[E|[]]]]; discriminate E.
Defined.

(** X22.  [learn] only ever adds: whatever its arguments and its caller,
    the tables afterwards are the tables before with at most one key row
    and at most one factoid row appended. *)
Theorem learn_only_adds env msg channel args db :
  exists ks fs,
    keys (snd (learn_body env msg channel args db)) = (keys db ++ ks)%list /\
    factoids (snd (learn_body env msg channel args db)) =
      (factoids db ++ fs)%list /\
    (List.length ks <= 1)%nat /\ (List.length fs <= 1)%nat.
Proof.
  assert (Hsame : exists ks fs,
            keys db = (keys db ++ ks)%list /\
            factoids db = (factoids db ++ fs)%list /\
            (List.length ks <= 1)%nat /\ (List.length fs <= 1)%nat).
  { exists [], []. rewrite !app_nil_r. simpl. repeat split; lia. }
  unfold learn_body.
  destruct (Py.index "as" args) as [i|]; [|exact Hsame].
  set (key := Py.join " " (firstn i (Py.pop_at i args))).
  destruct (lookup db key) as [k|] eqn:L.
  - rewrite (resolve_key_existing _ _ _ L).
    destruct (k_locked k =? 0); [|exact Hsame].
    destruct (checkCapability env _ _); simpl; [|exact Hsame].
    exists []. eexists. rewrite app_nil_r.
    split; [reflexivity|]. split; [reflexivity|]. simpl. lia.
  - rewrite (resolve_key_absent _ _ L). simpl.
    destruct (checkCapability env _ _); simpl.
    + eexists. eexists.
      split; [reflexivity|]. split; [reflexivity|]. simpl. lia.
    + eexists. exists [].
      split; [reflexivity|]. split; [now rewrite app_nil_r|]. simpl. lia.
Qed.

Lemma filter_id_length (fs : list FactoidRow) (x : Z) :
  ascending (map f_id fs) ->
  (List.length fs <=
   S (List.length (filter (fun g => negb (f_id g =? x)%Z) fs)))%nat.
Proof.
  induction fs as [|a fs IH]; simpl; [lia|].
  intros [Ha Hfs]. destruct (f_id a =? x) eqn:E; simpl.
  - apply Z.eqb_eq in E.
    assert (F : filter (fun g => negb (f_id g =? x)%Z) fs = fs).
    { apply forallb_filter_id. apply forallb_forall. intros g Hg.
      apply negb_true_iff, Z.eqb_neq.
      specialize (Ha (f_id g) (in_map f_id _ _ Hg)). lia. }
    rewrite F. lia.
  - specialize (IH Hfs). lia.
Qed.

(** X23.  [unlearn] only ever removes, and at most one factoid: in a
    well-formed database, whatever its arguments and its caller, every row
    left in either table was there before, and the [factoids] table has
    lost at most one row. *)
Theorem unlearn_removes_at_most_one env msg channel args db :
  wf db ->
  let db' := snd (unlearn_body env msg channel args db) in
  (forall k, In k (keys db') -> In k (keys db)) /\
  (forall g, In g (factoids db') -> In g (factoids db)) /\
  (List.length (factoids db) <= S (List.length (factoids db')))%nat.
Proof.
  intros H db'.
  assert (Hsame : (forall k, In k (keys db) -> In k (keys db)) /\
                  (forall g, In g (factoids db) -> In g (factoids db)) /\
                  (List.length (factoids db) <=
                   S (List.length (factoids db)))%nat)
    by (repeat split; auto).
  assert (Hfilter : forall ks x,
            (forall k, In k ks -> In k (keys db)) ->
            (forall k, In k ks -> In k (keys db)) /\
            (forall g, In g (filter (fun g => negb (f_id g =? x)%Z)
                               (factoids db)) -> In g (factoids db)) /\
            (List.length (factoids db) <=
             S (List.length (filter (fun g => negb (f_id g =? x)%Z)
                               (factoids db))))%nat).
  { intros ks x Hks. split; [exact Hks|]. split.
    - intros g Hg. apply filter_In in Hg. tauto.
    - apply filter_id_length, H. }
  unfold db', unlearn_body.
  destruct (unlearn_number args) as [e|[number words]]; [exact Hsame|].
  destruct (getArgs env words) as [e|key] eqn:Hk;
    [unfold unlearn_rest; rewrite Hk; exact Hsame|].
  destruct (checkCapability env (prefix msg)
              (makeChannelCapability env channel "factoids")) eqn:Hc;
    [|unfold unlearn_rest; rewrite Hk, Hc; exact Hsame].
  destruct (lookup db key) as [k|] eqn:L.
  2:{ unfold unlearn_rest. rewrite Hk, Hc.
      rewrite (from_keys_factoids_absent db key L). exact Hsame. }
  rewrite (unlearn_rest_lookup env msg channel number words key k db
             Hk Hc H L).
  destruct (facts_of db k) as [|f [|g r]]; [exact Hsame| |].
  - simpl. apply (Hfilter (filter (fun k' => negb (k_key k' =? key)%string)
                             (keys db))).
    intros k' Hk'. apply filter_In in Hk'. tauto.
  - destruct number as [n|]; [|exact Hsame]. cbv zeta.
    destruct (Py.getitem (f :: g :: r) n) as [f'|]; [|exact Hsame].
    simpl. apply (Hfilter (keys db)). auto.
Qed.

Lemma unlearn_removes_at_most_one_witness :
  (List.length (factoids (getDb Demo.two_colors "#chan")) <=
   S (List.length
        (factoids (snd (unlearn_body (Demo.env true 7) Demo.alice "#chan"
                          ["color"; "0"] (getDb Demo.two_colors "#chan"))))))%nat.
Proof.
  destruct (unlearn_removes_at_most_one (Demo.env true 7) Demo.alice "#chan"
              ["color"; "0"] (getDb Demo.two_colors "#chan")
              (reachable_wf _ "#chan")) as (_ & _ & H).
  exact H.
Defined.

(** ** Who reads the [locked] column *)

Lemma filter_map_comm {A} (p q : A -> bool) (g : A -> A) (l : list A) :
  (forall a, p (g a) = q a) -> filter p (map g l) = map g (filter q l).
Proof.
  intros H. induction l as [|a l IH]; simpl; [reflexivity|].
  rewrite H. destruct (q a); simpl; now rewrite IH.
Qed.

Lemma insert_by_map {A} (col : A -> Z) (h : A -> A) (x : A) (l : list A) :
  Sql.insert_by col (h x) (map h l) =
  map h (Sql.insert_by (fun a => col (h a)) x l).
Proof.
  induction l as [|y l IH]; simpl; [reflexivity|].
  destruct (col (h x) <=? col (h y)); simpl; [reflexivity|].
  now rewrite IH.
Qed.

Lemma order_by_map {A} (col : A -> Z) (h : A -> A) (l : list A) :
  Sql.order_by col (map h l) = map h (Sql.order_by (fun a => col (h a)) l).
Proof.
  induction l as [|x l IH]; simpl; [reflexivity|].
  now rewrite IH, insert_by_map.
Qed.

(** Writing the [locked] column of a key does not change which factoids
    the query of [whatis] returns, nor their order. *)
Lemma key_factoids_update_locked (db : Db) (key0 : string) (v : Z)
    (key : string) :
  key_factoids (Sql.update_locked db key0 v) key = key_factoids db key.
Proof.
  unfold key_factoids.
  set (relock := fun k => if (k_key k =? key0)%string
                          then mkKey (k_id k) (k_key k) v else k).
  assert (E : Sql.from_factoids_keys (Sql.update_locked db key0 v) key =
              map (fun r => (fst r, relock (snd r)))
                  (Sql.from_factoids_keys db key)).
  { unfold Sql.from_factoids_keys, Sql.update_locked. simpl.
    fold relock. induction (factoids db) as [|f fs IH]; simpl;
      [reflexivity|].
    rewrite map_app, IH. f_equal.
    rewrite (filter_map_comm _ (fun k => Sql.joins key k f)).
    - now rewrite !map_map.
    - intros k. unfold Sql.joins, relock.
      now destruct (k_key k =? key0)%string. }
  rewrite E, order_by_map, map_map. reflexivity.
Qed.

Lemma whatis_body_update_locked env msg channel args db key0 v :
  whatis_body env msg channel args (Sql.update_locked db key0 v) =
  (fst (whatis_body env msg channel args db), Sql.update_locked db key0 v).
Proof.
  unfold whatis_body, whatis_totalResults, whatis_rows.
  destruct (getArgs env args) as [e|key]; [reflexivity|].
  rewrite !key_factoids_update_locked.
  destruct (Py.len _ =? 0); [reflexivity|].
  destruct (shrinkList env _ _ _) as [shrunk l].
  now destruct (negb (shrunk =? 0)).
Qed.

Lemma randomfactoid_body_update_locked env msg channel args db key0 v :
  randomfactoid_body env msg channel args (Sql.update_locked db key0 v) =
  (fst (randomfactoid_body env msg channel args db),
   Sql.update_locked db key0 v).
Proof.
  unfold randomfactoid_body. simpl factoids.
  destruct (factoids db) as [|f0 fs]; [reflexivity|].
  set (f := nth _ (f0 :: fs) f0).
  unfold Sql.update_locked at 1. simpl keys.
  rewrite (filter_map_comm _ (fun k => k_id k =? f_key_id f)).
  - destruct (filter _ (keys db)) as [|k r]; [reflexivity|]. simpl.
    now destruct (k_key k =? key0)%string.
  - intros k. now destruct (k_key k =? key0)%string.
Qed.

(** C10, as the code has it.  A key whose [locked] column is set loses its
    [i]-th factoid to [unlearn] like any other key: the caller with the
    capability gets the success reply and the row is gone.  The column
    does not reach [unlearn], [whatis] or [randomfactoid]: writing it
    beforehand changes neither their answer nor what they do to the
    tables; [lock] and [unlock] write it without reading it.  It is read
    by [learn], which it gates, and by [factoidinfo], which reports it:
    the reply says "locked" for this key and "not locked" once the column
    is cleared. *)
Theorem lock_flag_read_by_learn_and_info env msg args dbs channel
    (words : list string) (word : string) (i : nat) key k f :
  getChannel env msg args = inr (channel, (words ++ [word])%list) ->
  Py.int word = Some (Z.of_nat i) ->
  getArgs env words = inr key ->
  checkCapability env (prefix msg)
    (makeChannelCapability env channel "factoids") = true ->
  wf (getDb dbs channel) ->
  lookup (getDb dbs channel) key = Some k ->
  k_locked k <> 0 ->
  nth_error (facts_of (getDb dbs channel) k) i = Some f ->
  let db := getDb dbs channel in
  let db' := getDb (snd (unlearn env msg args dbs)) channel in
  let info locked :=
    Reply ("Key " ++ repr env key ++ " is " ++ locked ++ " and has " ++
           Py.str (Py.len (Sql.order_by f_id (facts_of db k))) ++
           " factoids associated with it: " ++
           Py.join "; "
             (factoidinfo_lines env 0 (Sql.order_by f_id (facts_of db k)))) in
  (fst (unlearn env msg args dbs) = Reply (replySuccess env) /\
   factoids db' = filter (fun g => negb (f_id g =? f_id f)) (factoids db) /\
   ~ In f (factoids db')) /\
  (forall env0 msg0 channel0 args0 db0 key0 v,
     unlearn_body env0 msg0 channel0 args0 (Sql.update_locked db0 key0 v) =
     (fst (unlearn_body env0 msg0 channel0 args0 db0),
      Sql.update_locked (snd (unlearn_body env0 msg0 channel0 args0 db0))
                        key0 v)) /\
  (forall env0 msg0 channel0 args0 db0 key0 v,
     whatis_body env0 msg0 channel0 args0 (Sql.update_locked db0 key0 v) =
     (fst (whatis_body env0 msg0 channel0 args0 db0),
      Sql.update_locked db0 key0 v)) /\
  (forall env0 msg0 channel0 args0 db0 key0 v,
     randomfactoid_body env0 msg0 channel0 args0
       (Sql.update_locked db0 key0 v) =
     (fst (randomfactoid_body env0 msg0 channel0 args0 db0),
      Sql.update_locked db0 key0 v)) /\
  (forall v w env0 msg0 channel0 args0 db0 key0,
     getArgs env0 args0 = inr key0 ->
     fst (set_locked_body v env0 msg0 channel0 args0
            (Sql.update_locked db0 key0 w)) =
     fst (set_locked_body v env0 msg0 channel0 args0 db0) /\
     (checkCapability env0 (prefix msg0)
        (makeChannelCapability env0 channel0 "factoids") = true ->
      snd (set_locked_body v env0 msg0 channel0 args0
             (Sql.update_locked db0 key0 w)) =
      snd (set_locked_body v env0 msg0 channel0 args0 db0))) /\
  (forall env1 msg1 (kws fws : list string),
     ~ In "as" kws -> Py.join " " kws = key ->
     learn_body env1 msg1 channel (kws ++ "as" :: fws) db =
       (Error "That factoid is locked.", db) /\
     (checkCapability env1 (prefix msg1)
        (makeChannelCapability env1 channel "factoids") = true ->
      fst (learn_body env1 msg1 channel (kws ++ "as" :: fws)
             (Sql.update_locked db key 0)) = Reply (replySuccess env1))) /\
  fst (factoidinfo_body env msg channel words db) = info "locked" /\
  fst (factoidinfo_body env msg channel words (Sql.update_locked db key 0)) =
    info "not locked".
Proof.
  intros Hc Hn Hk Hcap H L Hl Hf db db' info.
  change (lookup db key = Some k) in L. change (wf db) in H.
  assert (E : factoids db' =
              filter (fun g => negb (f_id g =? f_id f)) (factoids db)).
  { unfold db', unlearn. rewrite (on_channel_inr _ _ _ _ _ _ _ Hc).
    simpl snd. rewrite getDb_setDb_same.
    now rewrite (unlearn_body_nth env msg channel words word i key k f
                   (getDb dbs channel) Hn Hk Hcap H L Hf). }
  assert (L0 : lookup (Sql.update_locked db key 0) key =
               Some (mkKey (k_id k) (k_key k) 0))
    by now rewrite lookup_update_locked, L.
  split; [split; [|split; [exact E|]]|].
  - unfold unlearn. rewrite (on_channel_inr _ _ _ _ _ _ _ Hc). simpl fst.
    now rewrite (unlearn_body_nth env msg channel words word i key k f
                   (getDb dbs channel) Hn Hk Hcap H L Hf).
  - rewrite E. intros Hin. apply filter_In in Hin.
    destruct Hin as [_ Hin]. now rewrite Z.eqb_refl in Hin.
  - split; [intros; apply unlearn_body_update_locked|].
    split; [intros; apply whatis_body_update_locked|].
    split; [intros; apply randomfactoid_body_update_locked|].
    split; [|split; [|split]].
    + intros v w env0 msg0 channel0 args0 db0 key0 Hk0.
      unfold set_locked_body. rewrite Hk0.
      destruct (checkCapability env0 _ _); simpl.
      * split; [reflexivity|]. intros _. apply update_locked_twice.
      * split; [reflexivity|discriminate].
    + intros env1 msg1 kws fws Has <-. split.
      * rewrite (learn_body_split _ _ _ _ _ _ Has).
        rewrite (resolve_key_existing _ _ _ L).
        apply Z.eqb_neq in Hl. now rewrite Hl.
      * intros Hc1. rewrite (learn_body_split _ _ _ _ _ _ Has).
        rewrite (resolve_key_existing _ _ _ L0). simpl. now rewrite Hc1.
    + unfold factoidinfo_body. rewrite Hk.
      pose proof (select_key_lookup db key) as S. rewrite L in S. simpl in S.
      destruct (Sql.select_key db key) as [|[id locked] r]; [discriminate|].
      simpl in S. injection S as -> ->.
      apply Z.eqb_neq in Hl. rewrite Hl. reflexivity.
    + unfold factoidinfo_body. rewrite Hk.
      pose proof (select_key_lookup (Sql.update_locked db key 0) key) as S.
      rewrite L0 in S. simpl in S.
      destruct (Sql.select_key (Sql.update_locked db key 0) key)
        as [|[id locked] r]; [discriminate|].
      simpl in S. injection S as -> ->. reflexivity.
Qed.

Lemma lock_flag_read_by_learn_and_info_witness :
  fst (unlearn (Demo.env true 7) Demo.alice ["color"; "0"]
         Demo.locked_colors) = Reply "The operation succeeded." /\
  factoids (getDb (snd (unlearn (Demo.env true 7) Demo.alice ["color"; "0"]
                          Demo.locked_colors)) "#chan") =
    [mkFactoid 2 1 "alice" 1000 "red"].
Proof.
  destruct (lock_flag_read_by_learn_and_info (Demo.env true 7) Demo.alice
              ["color"; "0"] Demo.locked_colors "#chan" ["color"] "0" 0%nat
              "color" (mkKey 1 "color" 1)
              (mkFactoid 1 1 "alice" 1000 "blue")
              eq_refl eq_refl eq_refl eq_refl) as ((H1 & H2 & _) & _).
  - exact (reachable_wf _ "#chan").
  - reflexivity.
  - simpl. lia.
  - reflexivity.
  - split; [exact H1|]. rewrite H2. reflexivity.
Defined.

(** C10 as stated fails: [learn] is not the only command that reads the
    [locked] column.  Two databases that differ in nothing but that column
    of the key "color" get different answers from [factoidinfo]. *)
Lemma factoidinfo_reads_lock :
  getDb Demo.locked_colors "#chan" =
    Sql.update_locked (getDb Demo.two_colors "#chan") "color" 1 /\
  fst (factoidinfo (Demo.env true 7) Demo.alice ["color"] Demo.two_colors) =
    Reply ("Key 'color' is not locked and has 2 factoids associated with it: "
           ++ "#0 was added by alice at 1000; #1 was added by alice at 1000")
  /\
  fst (factoidinfo (Demo.env true 7) Demo.alice ["color"] Demo.locked_colors) =
    Reply ("Key 'color' is locked and has 2 factoids associated with it: "
           ++ "#0 was added by alice at 1000; #1 was added by alice at 1000")
  /\
  fst (factoidinfo (Demo.env true 7) Demo.alice ["color"] Demo.two_colors) <>
  fst (factoidinfo (Demo.env true 7) Demo.alice ["color"] Demo.locked_colors).
Proof.
  repeat split. vm_compute. discriminate.
Qed.
